(** * Forseti Security: the BigQuery rules engine

    A shallow embedding of
    [google/cloud/forseti/scanner/audit/bigquery_rules_engine.py]:
    the rule book ([BigqueryRuleBook]), the rules ([Rule]) and the engine
    ([BigqueryRulesEngine]), together with the properties of the rule
    matching, of the rule-book index and of the engine life cycle.

    Python values are embedded as follows.
    - [str] is [string]; an optional dictionary entry ([d.get(k)]) is an
      [option], with [None] for an absent key.  Where the code reads a
      key without a default (mode, resource, resource_ids, name, type) a
      null value is that same [None]; the six pattern strings are read
      with the default ["*"], and for them [None] is the absent key only,
      a null there being no string of the rule-definition schema.
    - A [dict] is a [gmap]: a dictionary literal with a repeated key keeps
      the last value given for it, which is what a chain of inserts does.
    - A raised exception is an explicit [Raise] result; code that mutates
      the rule book before it raises is written in a state-and-exception
      monad whose state survives the exception.
    - A generator is the list of the values it yields when it is consumed
      to the end. *)

From Stdlib Require Import Ascii String List Bool Arith Lia.
From stdpp Require Import base option list strings countable gmap fin_maps.

Open Scope string_scope.
Open Scope list_scope.

(** ** Exceptions *)

Inductive exn : Type :=
| InvalidRulesSchemaError (rule_index : nat)
    (* 'Missing resource ids in rule {}'.format(rule_index) *)
| ValueError (value : string)
    (* Mode(value): value is not a valid Mode *)
| TypeError
    (* iterating over None *)
| AttributeError.
    (* an attribute of None *)

Inductive result (A : Type) : Type :=
| Ok (a : A)
| Raise (e : exn).
Arguments Ok {A} a.
Arguments Raise {A} e.

Definition is_ok {A} (r : result A) : bool :=
  match r with Ok _ => true | Raise _ => false end.

(** The value of a computation that is known not to raise. *)
Definition get_ok {A} (r : result A) : is_ok r = true → A :=
  match r with
  | Ok a => λ _, a
  | Raise _ => λ H, match Bool.diff_false_true H with end
  end.

(** ** [regular_exp]: the pattern compiler *)

Module regular_exp.

(** A compiled pattern is a sequence of tokens. *)
Inductive Token : Type :=
| Star
| Lit (c : ascii).

#[global] Instance Token_eq_dec : EqDecision Token.
Proof. solve_decision. Defined.

Definition Token_to_option (t : Token) : option ascii :=
  match t with Star => None | Lit c => Some c end.

Definition Token_of_option (o : option ascii) : Token :=
  match o with None => Star | Some c => Lit c end.

#[global] Instance Token_countable : Countable Token.
Proof.
  apply (inj_countable' Token_to_option Token_of_option).
  intros []; reflexivity.
Defined.

Definition star_char : ascii := "*"%char.

(** Modelled from the spec: [regular_exp.escape_and_globify], which is
    not part of the source file.  Every [*] of the wildcard string
    becomes the match-anything token and every other character is
    kept as a literal. *)
Fixpoint escape_and_globify (pattern_string : string) : list Token :=
  match pattern_string with
  | EmptyString => []
  | String c rest =>
      (if Ascii.eqb c star_char then Star else Lit c)
        :: escape_and_globify rest
  end.

(** Whether a wildcard string contains [*]. *)
Fixpoint has_star (pattern_string : string) : bool :=
  match pattern_string with
  | EmptyString => false
  | String c rest => Ascii.eqb c star_char || has_star rest
  end.

(** Modelled from the spec: the full-string match of a compiled pattern
    against a value ([re.match] on the anchored pattern).  A literal
    consumes exactly its own character; [Star] consumes zero or more
    arbitrary characters. *)
Fixpoint re_match (regex : list Token) (value : string) : bool :=
  match regex with
  | [] => match value with EmptyString => true | String _ _ => false end
  | Lit c :: regex' =>
      match value with
      | EmptyString => false
      | String d value' => Ascii.eqb c d && re_match regex' value'
      end
  | Star :: regex' =>
      (fix skip (v : string) : bool :=
         re_match regex' v
         || match v with
            | EmptyString => false
            | String _ v' => skip v'
            end) value
  end.

(** Modelled from the spec: [regular_exp.all_match], true iff every pair
    of the mapping matches; the empty mapping is vacuously true. *)
Definition all_match (rule_regex_to_val : gmap (list Token) string) : bool :=
  bool_decide (map_Forall (λ regex value, re_match regex value = true)
                          rule_regex_to_val).

(** The wildcard language in the words of the spec, as a relation: the
    executable matcher is compared with it below. *)
Inductive glob_matches : list Token → string → Prop :=
| glob_nil : glob_matches [] ""
| glob_lit c regex value :
    glob_matches regex value →
    glob_matches (Lit c :: regex) (String c value)
| glob_star regex skipped value :
    glob_matches regex value →
    glob_matches (Star :: regex) (String.append skipped value).

End regular_exp.

(** ** The data model *)

(** [class Mode(enum.Enum)] *)
Inductive Mode : Type :=
| WHITELIST   (* 'whitelist' *)
| BLACKLIST.  (* 'blacklist' *)

#[global] Instance Mode_eq_dec : EqDecision Mode.
Proof. solve_decision. Defined.

Module resource_mod.
(** [resource.ResourceType]: the one member this file uses. *)
Inductive ResourceType : Type := BIGQUERY.
End resource_mod.

(** [bigquery_access_controls.BigqueryAccessControls].  The class holds
    the fields of one access-control entry; the rule book stores compiled
    patterns in the six matched fields of the same class, so the type of
    those fields is a parameter: [string] for an entry, a compiled pattern
    for a rule.  The constructor's [raw_json] argument is the attribute
    [json]. *)
Module bq_acls.
Record BigqueryAccessControls (F : Type) : Type := {
  project_id : string;
  dataset_id : F;
  full_name : string;
  special_group : F;
  user_email : F;
  domain : F;
  group_email : F;
  role : F;
  view : gmap string string;
  json : string;
}.
Arguments project_id {F} _.
Arguments dataset_id {F} _.
Arguments full_name {F} _.
Arguments special_group {F} _.
Arguments user_email {F} _.
Arguments domain {F} _.
Arguments group_email {F} _.
Arguments role {F} _.
Arguments view {F} _.
Arguments json {F} _.
End bq_acls.

(** An access-control entry, and the pattern set of a rule. *)
Abbreviation Acl := (bq_acls.BigqueryAccessControls string).
Abbreviation AclPatterns := (bq_acls.BigqueryAccessControls (list regular_exp.Token)).

(** [RuleReference = namedtuple('RuleReference', ['bigquery_acl', 'mode'])] *)
Record RuleReference : Type := {
  bigquery_acl : AclPatterns;
  mode : Mode;
}.

(** [Rule.RuleViolation] *)
Module RuleViolation.
Record t : Type := {
  resource_type : resource_mod.ResourceType;
  resource_id : string;
  full_name : string;
  rule_name : option string;
  rule_index : nat;
  violation_type : string;
  dataset_id : string;
  role : string;
  special_group : string;
  user_email : string;
  domain : string;
  group_email : string;
  view : gmap string string;
  resource_data : string;
}.
End RuleViolation.

(** ** [class Rule] *)

Module Rule.

Record t : Type := {
  rule_name : option string;   (* rule_def.get('name') *)
  rule_index : nat;
  rules : RuleReference;
}.

(** The dictionary literal of [_is_applicable]: keyed by the compiled
    pattern, the [role] pair written after the [dataset_id] pair. *)
Definition applicable_regex_to_val (self : t) (acl : Acl)
  : gmap (list regular_exp.Token) string :=
  let rule_bigquery_acl := bigquery_acl (rules self) in
  <[bq_acls.role rule_bigquery_acl := bq_acls.role acl]>
    (<[bq_acls.dataset_id rule_bigquery_acl := bq_acls.dataset_id acl]> ∅).

Definition _is_applicable (self : t) (acl : Acl) : bool :=
  regular_exp.all_match (applicable_regex_to_val self acl).

(** The dictionary literal of [find_policy_violations], in the order the
    four pairs are written. *)
Definition rule_regex_to_val (self : t) (acl : Acl)
  : gmap (list regular_exp.Token) string :=
  let rule_bigquery_acl := bigquery_acl (rules self) in
  <[bq_acls.group_email rule_bigquery_acl := bq_acls.group_email acl]>
    (<[bq_acls.domain rule_bigquery_acl := bq_acls.domain acl]>
      (<[bq_acls.user_email rule_bigquery_acl := bq_acls.user_email acl]>
        (<[bq_acls.special_group rule_bigquery_acl
             := bq_acls.special_group acl]> ∅))).

Definition all_matched (self : t) (acl : Acl) : bool :=
  regular_exp.all_match (rule_regex_to_val self acl).

Definition has_violation (self : t) (acl : Acl) : bool :=
  bool_decide (mode (rules self) = BLACKLIST) && all_matched self acl
  || bool_decide (mode (rules self) = WHITELIST)
     && negb (all_matched self acl).

(** The record yielded on a violation. *)
Definition violation (self : t) (acl : Acl) : RuleViolation.t :=
  {| RuleViolation.resource_type := resource_mod.BIGQUERY;
     RuleViolation.resource_id := bq_acls.dataset_id acl;
     RuleViolation.full_name := bq_acls.full_name acl;
     RuleViolation.rule_name := rule_name self;
     RuleViolation.rule_index := rule_index self;
     RuleViolation.violation_type := "BIGQUERY_VIOLATION";
     RuleViolation.dataset_id := bq_acls.dataset_id acl;
     RuleViolation.role := bq_acls.role acl;
     RuleViolation.special_group := bq_acls.special_group acl;
     RuleViolation.user_email := bq_acls.user_email acl;
     RuleViolation.domain := bq_acls.domain acl;
     RuleViolation.group_email := bq_acls.group_email acl;
     RuleViolation.view := bq_acls.view acl;
     RuleViolation.resource_data := bq_acls.json acl |}.

(** The generator, as the list of what it yields. *)
Definition find_policy_violations (self : t) (acl : Acl)
  : list RuleViolation.t :=
  if negb (_is_applicable self acl) then []
  else if has_violation self acl then [violation self acl]
  else [].

End Rule.

(** ** Rule definitions, as loaded from the rules file *)

(** One entry of a rule definition's ['resource'] list. *)
Module RawResource.
Record t : Type := {
  type : option string;
  resource_ids : option (list string);
}.
End RawResource.

(** One rule definition: every key is optional in the file. *)
Module RuleDef.
Record t : Type := {
  name : option string;
  mode : option string;
  resource : option (list RawResource.t);
  dataset_id : option string;
  special_group : option string;
  user_email : option string;
  domain : option string;
  group_email : option string;
  role : option string;
}.
End RuleDef.

(** The rule definitions dictionary: its ['rules'] key. *)
Module RuleDefs.
Record t : Type := {
  rules : option (list RuleDef.t);
}.
End RuleDefs.

(** ** Resources *)

Module Resource.
Record t : Type := {
  id : string;
  type : option string;
  full_name : string;
}.

(** Modelled from the spec: the canonical resource identity (type and
    identifier) under which the rule book indexes a resource; the
    [Resource] class and its equality are not part of the source file. *)
Definition key (r : t) : option string * string := (type r, id r).
End Resource.

Module resource_util.
(** Modelled from the spec: [resource_util.create_resource], which
    canonicalizes a raw id/type pair into the resource the index is keyed
    by. *)
Definition create_resource (resource_id : string)
    (resource_type : option string) : Resource.t :=
  {| Resource.id := resource_id;
     Resource.type := resource_type;
     Resource.full_name := "" |}.
End resource_util.

(** ** Python built-ins *)

(** [str.upper], on ASCII letters. *)
Definition upper_char (c : ascii) : ascii :=
  let n := nat_of_ascii c in
  if ((97 <=? n) && (n <=? 122))%nat then ascii_of_nat (n - 32) else c.

Fixpoint upper (s : string) : string :=
  match s with
  | EmptyString => EmptyString
  | String c rest => String (upper_char c) (upper rest)
  end.

(** [Mode(value)]: the member whose value is [value], or [ValueError]. *)
Definition Mode_of_value (value : string) : result Mode :=
  if String.eqb value "whitelist" then Ok WHITELIST
  else if String.eqb value "blacklist" then Ok BLACKLIST
  else Raise (ValueError value).

(** Truth value of an optional string: [None] and [''] are falsy. *)
Definition truthy_str (v : option string) : bool :=
  match v with
  | None => false
  | Some s => negb (String.eqb s "")
  end.

(** ** State and exceptions

    A computation over a state [St] that may raise: the state it returns is
    the state at the point where it returned or raised. *)

Definition M (St A : Type) : Type := St → St * result A.

Definition ret {St A} (a : A) : M St A := λ s, (s, Ok a).

Definition raise {St A} (e : exn) : M St A := λ s, (s, Raise e).

Definition bind {St A B} (m : M St A) (k : A → M St B) : M St B :=
  λ s, match m s with
       | (s', Ok a) => k a s'
       | (s', Raise e) => (s', Raise e)
       end.

Definition lift {St A} (r : result A) : M St A := λ s, (s, r).

Definition modify {St} (f : St → St) : M St unit := λ s, (f s, Ok tt).

Declare Scope py_scope.
Delimit Scope py_scope with py.
Notation "'let!' x := m 'in' k" := (bind m (λ x, k))
  (at level 10, x name, m at level 100, k at level 200) : py_scope.
Notation "'do!' m 'in' k" := (bind m (λ _, k))
  (at level 10, m at level 100, k at level 200) : py_scope.

(** [for x in xs: body(x)] *)
Fixpoint for_each {St X} (xs : list X) (body : X → M St unit) : M St unit :=
  match xs with
  | [] => ret tt
  | x :: xs' => bind (body x) (λ _, for_each xs' body)
  end.

(** [for (i, x) in enumerate(xs): body(x, i)], counting from [i]. *)
Fixpoint for_each_enumerate {St X} (i : nat) (xs : list X)
    (body : X → nat → M St unit) : M St unit :=
  match xs with
  | [] => ret tt
  | x :: xs' => bind (body x i) (λ _, for_each_enumerate (S i) xs' body)
  end.

(** [for x in xs: acc = body(acc, x)], for a loop that rebinds a local. *)
Fixpoint for_fold {St X A} (xs : list X) (acc : A)
    (body : A → X → M St A) : M St A :=
  match xs with
  | [] => ret acc
  | x :: xs' => bind (body acc x) (λ acc', for_fold xs' acc' body)
  end.

Open Scope py_scope.

(** ** [class BigqueryRuleBook] *)

Module BigqueryRuleBook.

Record t : Type := {
  resource_rules_map : gmap (option string * string) (list Rule.t);
  rule_defs : RuleDefs.t;
}.

(** *** The index, a [collections.defaultdict(list)] *)

(** [d[k]]: a miss stores the default [[]] under [k] before returning it. *)
Definition getitem (k : Resource.t) : M t (list Rule.t) :=
  λ self,
    match resource_rules_map self !! Resource.key k with
    | Some l => (self, Ok l)
    | None =>
        ({| resource_rules_map :=
              <[Resource.key k := []]> (resource_rules_map self);
            rule_defs := rule_defs self |}, Ok [])
    end.

(** [d.get(k, default)]: a miss returns [default] and stores nothing. *)
Definition get (k : Resource.t) (default : list Rule.t)
  : M t (list Rule.t) :=
  λ self,
    (self,
     Ok (match resource_rules_map self !! Resource.key k with
         | Some l => l
         | None => default
         end)).

(** [d[k].append(rule)] *)
Definition append (k : Resource.t) (rule : Rule.t) : M t unit :=
  let! l := getitem k in
  modify (λ self,
    {| resource_rules_map :=
         <[Resource.key k := l ++ [rule]]> (resource_rules_map self);
       rule_defs := rule_defs self |}).

Section Build.

(** [json.dumps], applied to one raw resource. *)
Variable json_dumps : RawResource.t → string.

Definition _build_rule (rule_def : RuleDef.t) (rule_index : nat)
    (raw_resource : RawResource.t) : result Rule.t :=
  let dataset_id := default "*" (RuleDef.dataset_id rule_def) in
  let special_group := default "*" (RuleDef.special_group rule_def) in
  let user_email := default "*" (RuleDef.user_email rule_def) in
  let domain := default "*" (RuleDef.domain rule_def) in
  let group_email := default "*" (RuleDef.group_email rule_def) in
  let role := default "*" (RuleDef.role rule_def) in
  let def_mode := RuleDef.mode rule_def in
  match (if truthy_str def_mode
         then Mode_of_value (default "" def_mode)
         else Ok BLACKLIST) with
  | Raise e => Raise e
  | Ok mode =>
      let rule_def_resource :=
        {| bigquery_acl :=
             {| bq_acls.project_id := "";
                bq_acls.dataset_id :=
                  regular_exp.escape_and_globify dataset_id;
                bq_acls.full_name := "";
                bq_acls.special_group :=
                  regular_exp.escape_and_globify special_group;
                bq_acls.user_email :=
                  regular_exp.escape_and_globify user_email;
                bq_acls.domain := regular_exp.escape_and_globify domain;
                bq_acls.group_email :=
                  regular_exp.escape_and_globify group_email;
                bq_acls.role :=
                  regular_exp.escape_and_globify (upper role);
                bq_acls.view := ∅;
                bq_acls.json := json_dumps raw_resource |};
           mode := mode |} in
      Ok {| Rule.rule_name := RuleDef.name rule_def;
            Rule.rule_index := rule_index;
            Rule.rules := rule_def_resource |}
  end.

(** [not resource_ids or len(resource_ids) < 1] *)
Definition missing_ids (resource_ids : option (list string)) : bool :=
  match resource_ids with
  | None => true
  | Some ids =>
      match ids with [] => true | _ :: _ => false end
      || (length ids <? 1)%nat
  end.

Definition add_rule (rule_def : RuleDef.t) (rule_index : nat) : M t unit :=
  match RuleDef.resource rule_def with
  | None => raise TypeError
  | Some resources =>
      for_each resources (λ raw_resource,
        let resource_ids := RawResource.resource_ids raw_resource in
        if missing_ids resource_ids
        then raise (InvalidRulesSchemaError rule_index)
        else
          let! rule := lift (_build_rule rule_def rule_index raw_resource) in
          let resource_type := RawResource.type raw_resource in
          for_each (default [] resource_ids) (λ resource_id,
            let resource :=
              resource_util.create_resource resource_id resource_type in
            append resource rule))
  end.

Definition add_rules (rule_defs : RuleDefs.t) : M t unit :=
  for_each_enumerate 0 (default [] (RuleDefs.rules rule_defs))
    (λ rule i, add_rule rule i).

(** [not rule_defs]: [None], or the dictionary without content. *)
Definition no_defs (rule_defs : option RuleDefs.t) : bool :=
  match rule_defs with
  | None => true
  | Some defs =>
      match RuleDefs.rules defs with None => true | Some _ => false end
  end.

(** The constructor: an exception leaves no rule book behind. *)
Definition __init__ (rule_defs : option RuleDefs.t) : result t :=
  let self := {| resource_rules_map := ∅;
                 rule_defs := {| RuleDefs.rules := None |} |} in
  match rule_defs with
  | Some defs =>
      if no_defs rule_defs then Ok self
      else
        match add_rules defs {| resource_rules_map := ∅;
                                rule_defs := defs |} with
        | (self', Ok _) => Ok self'
        | (_, Raise e) => Raise e
        end
  | None => Ok self
  end.

End Build.

Section Query.

(** [relationship.find_ancestors(resource, full_name)]: the hierarchy
    resolver, which returns the resource and its ancestors, closest
    first. *)
Variable find_ancestors : Resource.t → string → list Resource.t.

Definition find_policy_violations (resource : Resource.t) (bq_acl : Acl)
  : M t (list RuleViolation.t) :=
  let violations := [] in
  let resource_ancestors :=
    find_ancestors resource (Resource.full_name resource) in
  for_fold resource_ancestors violations (λ violations res,
    let! res_rules := get res [] in
    for_fold res_rules violations (λ violations rule,
      ret (violations ++ Rule.find_policy_violations rule bq_acl))).

End Query.

End BigqueryRuleBook.

(** ** [class BigqueryRulesEngine] *)

Module BigqueryRulesEngine.

Record t : Type := {
  rules_file_path : string;
  rule_book : option BigqueryRuleBook.t;
}.

Definition __init__ (rules_file_path : string) : t :=
  {| rules_file_path := rules_file_path; rule_book := None |}.

(** The engine together with what it does to its surroundings: the number
    of times the rules definition file has been loaded. *)
Record World : Type := {
  self : t;
  loads : nat;
}.

Definition set_rule_book (book : BigqueryRuleBook.t) : M World unit :=
  modify (λ w,
    {| self := {| rules_file_path := rules_file_path (self w);
                  rule_book := Some book |};
       loads := loads w |}).

(** Run a method of the installed rule book; it acts on the book in
    place, so what it did before raising stays done. *)
Definition on_rule_book {A} (m : M BigqueryRuleBook.t A) : M World A :=
  λ w,
    match rule_book (self w) with
    | None => (w, Raise AttributeError)
    | Some book =>
        let (book', r) := m book in
        ({| self := {| rules_file_path := rules_file_path (self w);
                       rule_book := Some book' |};
            loads := loads w |}, r)
    end.

Section Engine.

Variable json_dumps : RawResource.t → string.
Variable find_ancestors : Resource.t → string → list Resource.t.

(** What [BaseRulesEngine._load_rule_definitions] parses from the file at
    a path. *)
Variable rules_file : string → option RuleDefs.t.

Definition _load_rule_definitions : M World (option RuleDefs.t) :=
  λ w,
    ({| self := self w; loads := S (loads w) |},
     Ok (rules_file (rules_file_path (self w)))).

Definition build_rule_book : M World unit :=
  let! rule_defs := _load_rule_definitions in
  let! book := lift (BigqueryRuleBook.__init__ json_dumps rule_defs) in
  set_rule_book book.

Definition find_policy_violations (parent_project : Resource.t)
    (bq_acl : Acl) (force_rebuild : bool) : M World (list RuleViolation.t) :=
  let! unbuilt := (λ w, (w, Ok (bool_decide (rule_book (self w) = None)))) in
  do! (if unbuilt || force_rebuild then build_rule_book else ret tt) in
  let! violations :=
    on_rule_book
      (BigqueryRuleBook.find_policy_violations find_ancestors
         parent_project bq_acl) in
  ret violations.

Definition add_rules (rules : RuleDefs.t) : M World unit :=
  let! built := (λ w, (w, Ok (bool_decide (rule_book (self w) ≠ None)))) in
  if built then on_rule_book (BigqueryRuleBook.add_rules json_dumps rules)
  else ret tt.

End Engine.

End BigqueryRulesEngine.

(** ** The result sequence, in the words of the specification *)

(** The rule list registered for a resource, empty if none. *)
Definition registered_rules (self : BigqueryRuleBook.t) (res : Resource.t)
  : list Rule.t :=
  default [] (BigqueryRuleBook.resource_rules_map self !! Resource.key res).

(** The violations of one ancestor: those of its rules, in list order. *)
Definition ancestor_violations (self : BigqueryRuleBook.t) (acl : Acl)
    (res : Resource.t) : list RuleViolation.t :=
  concat (map (λ rule, Rule.find_policy_violations rule acl)
              (registered_rules self res)).

(** The per-ancestor results, concatenated in ancestor order. *)
Definition concatenated_violations (self : BigqueryRuleBook.t) (acl : Acl)
    (ancestors : list Resource.t) : list RuleViolation.t :=
  concat (map (ancestor_violations self acl) ancestors).

(** A rule definition with another ['resource'] list. *)
Definition with_resource (rule_def : RuleDef.t)
    (resources : list RawResource.t) : RuleDef.t :=
  {| RuleDef.name := RuleDef.name rule_def;
     RuleDef.mode := RuleDef.mode rule_def;
     RuleDef.resource := Some resources;
     RuleDef.dataset_id := RuleDef.dataset_id rule_def;
     RuleDef.special_group := RuleDef.special_group rule_def;
     RuleDef.user_email := RuleDef.user_email rule_def;
     RuleDef.domain := RuleDef.domain rule_def;
     RuleDef.group_email := RuleDef.group_email rule_def;
     RuleDef.role := RuleDef.role rule_def |}.

(** ** What building registers, in terms of the rule definitions *)

(** Whether the mode of a definition is one [_build_rule] accepts: none,
    the empty string, or the value of a [Mode]. *)
Definition valid_mode (def_mode : option string) : bool :=
  match def_mode with
  | None => true
  | Some value =>
      String.eqb value ""
      || String.eqb value "whitelist"
      || String.eqb value "blacklist"
  end.

(** The rules of a definition for one key of the index: for each resource
    entry in turn, the rule built for that entry, once for each of the
    entry's ids that makes this key. *)
Definition rules_for_key (json_dumps : RawResource.t → string)
    (rule_def : RuleDef.t) (rule_index : nat)
    (resources : list RawResource.t) (k : option string * string)
  : list Rule.t :=
  flat_map
    (λ raw_resource,
       match BigqueryRuleBook._build_rule json_dumps rule_def rule_index
               raw_resource with
       | Ok rule =>
           flat_map
             (λ resource_id,
                if decide (Resource.key
                             (resource_util.create_resource resource_id
                                (RawResource.type raw_resource)) = k)
                then [rule] else [])
             (default [] (RawResource.resource_ids raw_resource))
       | Raise _ => []
       end)
    resources.

(** A rule is built for a key by a definition at an index when some
    resource entry of the definition lists an id that makes the key and
    the definition compiles to the rule for that entry. *)
Definition built_for (json_dumps : RawResource.t → string)
    (rule_def : RuleDef.t) (rule_index : nat)
    (k : option string * string) (rule : Rule.t) : Prop :=
  ∃ resources raw_resource resource_ids resource_id,
    RuleDef.resource rule_def = Some resources
    ∧ raw_resource ∈ resources
    ∧ RawResource.resource_ids raw_resource = Some resource_ids
    ∧ resource_id ∈ resource_ids
    ∧ k = Resource.key
            (resource_util.create_resource resource_id
               (RawResource.type raw_resource))
    ∧ BigqueryRuleBook._build_rule json_dumps rule_def rule_index
        raw_resource = Ok rule.

(** One book extends another by rules that satisfy [P] at their key: the
    rule list of every key is the old list followed by such rules. *)
Definition extends_with (P : option string * string → Rule.t → Prop)
    (book book' : BigqueryRuleBook.t) : Prop :=
  BigqueryRuleBook.rule_defs book' = BigqueryRuleBook.rule_defs book
  ∧ ∀ k : Resource.t,
      ∃ added,
        registered_rules book' k = registered_rules book k ++ added
        ∧ Forall (P (Resource.key k)) added.

(** ** Sample data

    The rule files and entries of the example scenarios, used to run the
    definitions above on concrete inputs. *)

Definition quote : string := String (ascii_of_nat 34) EmptyString.

Definition quoted (s : string) : string :=
  String.append quote (String.append s quote).

(** A rendering of one raw resource in the layout of [json.dumps], for
    identifiers that need no escaping. *)
Definition sample_json_dumps (raw_resource : RawResource.t) : string :=
  String.concat ""
    [ "{"; quoted "type"; ": ";
      match RawResource.type raw_resource with
      | Some ty => quoted ty
      | None => "null"
      end;
      ", "; quoted "resource_ids"; ": ";
      match RawResource.resource_ids raw_resource with
      | Some ids => String.concat "" ["["; String.concat ", " (map quoted ids); "]"]
      | None => "null"
      end;
      "}" ].

Definition sample_acl (dataset_id role special_group user_email domain
    group_email : string) : Acl :=
  {| bq_acls.project_id := "proj-1";
     bq_acls.dataset_id := dataset_id;
     bq_acls.full_name := "organization/org-1/project/proj-1/dataset/ds1/";
     bq_acls.special_group := special_group;
     bq_acls.user_email := user_email;
     bq_acls.domain := domain;
     bq_acls.group_email := group_email;
     bq_acls.role := role;
     bq_acls.view := ∅;
     bq_acls.json := "{}" |}.

(** Scenario 1 and 2: access granted to a domain. *)
Definition acl_external : Acl :=
  sample_acl "ds1" "OWNER" "" "" "external.com" "".

Definition acl_internal : Acl :=
  sample_acl "ds1" "OWNER" "" "" "internal.com" "".

Definition project_scope : RawResource.t :=
  {| RawResource.type := Some "project";
     RawResource.resource_ids := Some ["proj-1"] |}.

Definition organization_scope : RawResource.t :=
  {| RawResource.type := Some "organization";
     RawResource.resource_ids := Some ["org-1"] |}.

Definition empty_scope : RawResource.t :=
  {| RawResource.type := Some "project";
     RawResource.resource_ids := Some [] |}.

(** Scenario 1: [mode=blacklist, dataset_id=*, role=OWNER,
    domain=external.com], on project [proj-1]. *)
Definition def_no_external_owner : RuleDef.t :=
  {| RuleDef.name := Some "no external owners";
     RuleDef.mode := Some "blacklist";
     RuleDef.resource := Some [project_scope];
     RuleDef.dataset_id := Some "*";
     RuleDef.special_group := None;
     RuleDef.user_email := None;
     RuleDef.domain := Some "external.com";
     RuleDef.group_email := None;
     RuleDef.role := Some "OWNER" |}.

(** A rule definition whose [dataset_id] and [role] patterns are the same
    text. *)
Definition def_same_pattern : RuleDef.t :=
  {| RuleDef.name := Some "owner datasets";
     RuleDef.mode := Some "blacklist";
     RuleDef.resource := Some [project_scope];
     RuleDef.dataset_id := Some "OWNER";
     RuleDef.special_group := None;
     RuleDef.user_email := None;
     RuleDef.domain := None;
     RuleDef.group_email := None;
     RuleDef.role := Some "owner" |}.

(** Scenario 3: [mode=whitelist, user_email=*@corp.com]. *)
Definition def_corp_only : RuleDef.t :=
  {| RuleDef.name := Some "corp users only";
     RuleDef.mode := Some "whitelist";
     RuleDef.resource := Some [organization_scope];
     RuleDef.dataset_id := None;
     RuleDef.special_group := None;
     RuleDef.user_email := Some "*@corp.com";
     RuleDef.domain := None;
     RuleDef.group_email := None;
     RuleDef.role := None |}.

Definition acl_alice : Acl :=
  sample_acl "ds1" "READER" "" "alice@corp.com" "" "".

Definition acl_bob : Acl :=
  sample_acl "ds1" "READER" "" "bob@external.com" "" "".

(** A rule definition whose mode is present and empty, and one whose
    mode is not a mode. *)
Definition def_empty_mode : RuleDef.t :=
  {| RuleDef.name := Some "empty mode";
     RuleDef.mode := Some "";
     RuleDef.resource := Some [project_scope];
     RuleDef.dataset_id := None;
     RuleDef.special_group := None;
     RuleDef.user_email := None;
     RuleDef.domain := Some "external.com";
     RuleDef.group_email := None;
     RuleDef.role := None |}.

Definition def_unknown_mode : RuleDef.t :=
  {| RuleDef.name := Some "unknown mode";
     RuleDef.mode := Some "greylist";
     RuleDef.resource := Some [project_scope];
     RuleDef.dataset_id := None;
     RuleDef.special_group := None;
     RuleDef.user_email := None;
     RuleDef.domain := Some "external.com";
     RuleDef.group_email := None;
     RuleDef.role := None |}.

(** The rules these definitions compile to. *)
Definition rule_no_external_owner : Rule.t :=
  get_ok (BigqueryRuleBook._build_rule sample_json_dumps
            def_no_external_owner 0 project_scope) eq_refl.

Definition rule_same_pattern : Rule.t :=
  get_ok (BigqueryRuleBook._build_rule sample_json_dumps
            def_same_pattern 0 project_scope) eq_refl.

Definition rule_corp_only : Rule.t :=
  get_ok (BigqueryRuleBook._build_rule sample_json_dumps
            def_corp_only 1 organization_scope) eq_refl.

(** Scenario 4: project [proj-1] under organization [org-1]. *)
Definition proj_1 : Resource.t :=
  {| Resource.id := "proj-1";
     Resource.type := Some "project";
     Resource.full_name := "organization/org-1/project/proj-1/" |}.

Definition org_1 : Resource.t :=
  {| Resource.id := "org-1";
     Resource.type := Some "organization";
     Resource.full_name := "organization/org-1/" |}.

(** A hierarchy resolver for this one hierarchy. *)
Definition sample_find_ancestors (resource : Resource.t)
    (full_name : string) : list Resource.t :=
  if bool_decide (Resource.key resource = Resource.key proj_1)
  then [resource; org_1]
  else [resource].

Definition empty_book : BigqueryRuleBook.t :=
  {| BigqueryRuleBook.resource_rules_map := ∅;
     BigqueryRuleBook.rule_defs := {| RuleDefs.rules := None |} |}.

(** The rules file of scenario 4 and the book built from it. *)
Definition sample_rules_file : RuleDefs.t :=
  {| RuleDefs.rules := Some [def_no_external_owner; def_corp_only] |}.

Definition sample_book : BigqueryRuleBook.t :=
  get_ok (BigqueryRuleBook.__init__ sample_json_dumps
            (Some sample_rules_file)) eq_refl.

(** An external owner who is also an external user. *)
Definition acl_external_bob : Acl :=
  sample_acl "ds1" "OWNER" "" "bob@external.com" "external.com" "".

(** Scenario 5: a definition whose second resource entry has no ids. *)
Definition def_partial : RuleDef.t :=
  {| RuleDef.name := Some "no external owners";
     RuleDef.mode := Some "blacklist";
     RuleDef.resource := Some [project_scope; empty_scope];
     RuleDef.dataset_id := Some "*";
     RuleDef.special_group := None;
     RuleDef.user_email := None;
     RuleDef.domain := Some "external.com";
     RuleDef.group_email := None;
     RuleDef.role := Some "OWNER" |}.

(** An engine that has not built its rule book yet, and the same engine
    with the book of scenario 4 installed. *)
Definition unbuilt_engine : BigqueryRulesEngine.World :=
  {| BigqueryRulesEngine.self :=
       BigqueryRulesEngine.__init__ "rules/bigquery_rules.yaml";
     BigqueryRulesEngine.loads := 0 |}.

Definition built_engine : BigqueryRulesEngine.World :=
  {| BigqueryRulesEngine.self :=
       {| BigqueryRulesEngine.rules_file_path := "rules/bigquery_rules.yaml";
          BigqueryRulesEngine.rule_book := Some sample_book |};
     BigqueryRulesEngine.loads := 1 |}.

Definition sample_file_system (path : string) : option RuleDefs.t :=
  if String.eqb path "rules/bigquery_rules.yaml"
  then Some sample_rules_file
  else None.

(** A rules file made of the definition of scenario 5. *)
Definition partial_rules_file : RuleDefs.t :=
  {| RuleDefs.rules := Some [def_partial] |}.

(** A rule definition that names four different patterns. *)
Definition def_four_patterns : RuleDef.t :=
  {| RuleDef.name := Some "four patterns";
     RuleDef.mode := Some "whitelist";
     RuleDef.resource := Some [project_scope];
     RuleDef.dataset_id := Some "ds*";
     RuleDef.special_group := Some "projectOwners";
     RuleDef.user_email := Some "*@corp.com";
     RuleDef.domain := Some "corp.com";
     RuleDef.group_email := Some "*@groups.corp.com";
     RuleDef.role := Some "reader" |}.

Definition rule_four_patterns : Rule.t :=
  get_ok (BigqueryRuleBook._build_rule sample_json_dumps
            def_four_patterns 2 project_scope) eq_refl.

(** A rule definition that names no pattern at all. *)
Definition def_no_pattern : RuleDef.t :=
  {| RuleDef.name := Some "everything";
     RuleDef.mode := None;
     RuleDef.resource := Some [organization_scope];
     RuleDef.dataset_id := None;
     RuleDef.special_group := None;
     RuleDef.user_email := None;
     RuleDef.domain := None;
     RuleDef.group_email := None;
     RuleDef.role := None |}.

Definition rule_no_pattern : Rule.t :=
  get_ok (BigqueryRuleBook._build_rule sample_json_dumps
            def_no_pattern 0 organization_scope) eq_refl.

(** A definition with two resource entries, both in order. *)
Definition def_two_scopes : RuleDef.t :=
  {| RuleDef.name := Some "no external owners";
     RuleDef.mode := Some "blacklist";
     RuleDef.resource :=
       Some [project_scope;
             {| RawResource.type := Some "organization";
                RawResource.resource_ids := Some ["org-1"; "org-2"] |}];
     RuleDef.dataset_id := Some "*";
     RuleDef.special_group := None;
     RuleDef.user_email := None;
     RuleDef.domain := Some "external.com";
     RuleDef.group_email := None;
     RuleDef.role := Some "OWNER" |}.

(** The definition of scenario 1 as a whitelist rule, compiled for another
    resource entry. *)
Definition def_external_owner_only : RuleDef.t :=
  {| RuleDef.name := Some "external owners only";
     RuleDef.mode := Some "whitelist";
     RuleDef.resource := Some [organization_scope];
     RuleDef.dataset_id := Some "*";
     RuleDef.special_group := None;
     RuleDef.user_email := None;
     RuleDef.domain := Some "external.com";
     RuleDef.group_email := None;
     RuleDef.role := Some "OWNER" |}.

Definition rule_external_owner_only : Rule.t :=
  get_ok (BigqueryRuleBook._build_rule sample_json_dumps
            def_external_owner_only 5 organization_scope) eq_refl.

(** A blacklist rule definition that names the same pattern for the
    user and for the group, and the same as a whitelist rule. *)
Definition def_not_evil : RuleDef.t :=
  {| RuleDef.name := Some "nobody from evil.com";
     RuleDef.mode := Some "blacklist";
     RuleDef.resource := Some [project_scope];
     RuleDef.dataset_id := None;
     RuleDef.special_group := None;
     RuleDef.user_email := Some "*@evil.com";
     RuleDef.domain := None;
     RuleDef.group_email := Some "*@evil.com";
     RuleDef.role := None |}.

Definition def_only_evil : RuleDef.t :=
  {| RuleDef.name := Some "only evil.com";
     RuleDef.mode := Some "whitelist";
     RuleDef.resource := Some [project_scope];
     RuleDef.dataset_id := None;
     RuleDef.special_group := None;
     RuleDef.user_email := Some "*@evil.com";
     RuleDef.domain := None;
     RuleDef.group_email := Some "*@evil.com";
     RuleDef.role := None |}.

Definition rule_not_evil : Rule.t :=
  get_ok (BigqueryRuleBook._build_rule sample_json_dumps
            def_not_evil 0 project_scope) eq_refl.

Definition rule_only_evil : Rule.t :=
  get_ok (BigqueryRuleBook._build_rule sample_json_dumps
            def_only_evil 1 project_scope) eq_refl.

(** An entry whose user is not of evil.com and whose group is. *)
Definition acl_alice_in_evil_group : Acl :=
  sample_acl "ds1" "READER" "" "alice@corp.com" "" "x@evil.com".

(** * Properties *)

(** ** The pattern compiler *)

Section PatternCompiler.

Import regular_exp.

Lemma append_empty_r (s : string) : String.append s "" = s.
Proof.
  induction s as [|c s IH]; [reflexivity|].
  change (String.append (String c s) "") with (String c (String.append s "")).
  rewrite IH. reflexivity.
Qed.

Lemma re_match_Star regex value :
  re_match (Star :: regex) value
  = re_match regex value
    || match value with
       | EmptyString => false
       | String _ value' => re_match (Star :: regex) value'
       end.
Proof. destruct value; reflexivity. Qed.

Lemma re_match_glob_matches regex :
  ∀ value, re_match regex value = true → glob_matches regex value.
Proof.
  induction regex as [|[|c] regex IH]; intros value H.
  - destruct value; [constructor | discriminate].
  - induction value as [|d value IHv]; rewrite re_match_Star in H.
    + rewrite orb_false_r in H.
      apply (glob_star regex "" ""), IH, H.
    + apply orb_true_iff in H as [H|H].
      * apply (glob_star regex "" (String d value)), IH, H.
      * specialize (IHv H). inversion IHv as [| |r skipped rest Hr]; subst.
        apply (glob_star regex (String d skipped) rest), Hr.
  - destruct value as [|d value]; simpl in H; [discriminate|].
    apply andb_true_iff in H as [Hc H].
    apply Ascii.eqb_eq in Hc; subst d.
    constructor. apply IH, H.
Qed.

Lemma glob_matches_re_match regex value :
  glob_matches regex value → re_match regex value = true.
Proof.
  induction 1 as [|c regex value _ IH|regex skipped value _ IH].
  - reflexivity.
  - simpl. rewrite Ascii.eqb_refl. exact IH.
  - induction skipped as [|d skipped IHs].
    + change (String.append "" value) with value.
      rewrite re_match_Star, IH. reflexivity.
    + change (String.append (String d skipped) value)
        with (String d (String.append skipped value)).
      rewrite re_match_Star, IHs. apply orb_true_r.
Qed.

Lemma re_match_iff regex value :
  re_match regex value = true ↔ glob_matches regex value.
Proof.
  split; [apply re_match_glob_matches | apply glob_matches_re_match].
Qed.

Lemma re_match_Star_iff regex value :
  re_match (Star :: regex) value = true
  ↔ ∃ skipped rest,
      value = String.append skipped rest ∧ re_match regex rest = true.
Proof.
  rewrite re_match_iff. split.
  - inversion 1 as [| |r skipped rest Hr]; subst.
    exists skipped, rest. split; [reflexivity|].
    apply glob_matches_re_match, Hr.
  - intros (skipped & rest & -> & Hr).
    constructor. apply re_match_glob_matches, Hr.
Qed.

Lemma re_match_Lit_iff c regex value :
  re_match (Lit c :: regex) value = true
  ↔ ∃ rest, value = String c rest ∧ re_match regex rest = true.
Proof.
  split.
  - destruct value as [|d value]; simpl; [discriminate|].
    intros H. apply andb_true_iff in H as [Hc H].
    apply Ascii.eqb_eq in Hc; subst d. eauto.
  - intros (rest & -> & H). simpl. rewrite Ascii.eqb_refl. exact H.
Qed.

Lemma re_match_literal pattern_string :
  has_star pattern_string = false →
  ∀ value,
    re_match (escape_and_globify pattern_string) value = true
    ↔ value = pattern_string.
Proof.
  induction pattern_string as [|c rest IH]; intros Hs value.
  - simpl. destruct value; split; congruence.
  - simpl in Hs. apply orb_false_iff in Hs as [Hc Hs].
    cbn [escape_and_globify]. rewrite Hc, re_match_Lit_iff. split.
    + intros (v & -> & H). f_equal. apply (IH Hs), H.
    + intros ->. exists rest. split; [reflexivity|]. apply (IH Hs). reflexivity.
Qed.

(** C5.  The compiled wildcard pattern matches the whole string: the
    pattern ["*"] matches every string (the empty one and those made of
    characters special to regular expressions included, since no
    character is excluded); the empty pattern matches the empty string
    only; a pattern that starts with [*] matches a value iff some suffix
    of the value, after zero or more skipped characters, matches the rest
    of the pattern; a pattern that starts with any other character
    matches a value iff the value starts with that very character and
    its rest matches the rest of the pattern.  The matcher recognizes
    exactly the wildcard language [glob_matches]. *)
Theorem C5_wildcard_matches_full_string :
  (∀ value, re_match (escape_and_globify "*") value = true)
  ∧ (∀ value, re_match (escape_and_globify "") value = true ↔ value = "")
  ∧ (∀ c pattern_string value,
       re_match (escape_and_globify (String c pattern_string)) value = true
       ↔ if Ascii.eqb c star_char
         then ∃ skipped rest,
                value = String.append skipped rest
                ∧ re_match (escape_and_globify pattern_string) rest = true
         else ∃ rest,
                value = String c rest
                ∧ re_match (escape_and_globify pattern_string) rest = true)
  ∧ (∀ pattern_string value,
       re_match (escape_and_globify pattern_string) value = true
       ↔ glob_matches (escape_and_globify pattern_string) value).
Proof.
  repeat split.
  - intros value. apply re_match_Star_iff.
    exists value, "". split; [|reflexivity].
    symmetry. apply append_empty_r.
  - destruct value; simpl; congruence.
  - intros ->. reflexivity.
  - simpl. destruct (Ascii.eqb c star_char).
    + apply re_match_Star_iff.
    + apply re_match_Lit_iff.
  - simpl. destruct (Ascii.eqb c star_char).
    + apply re_match_Star_iff.
    + apply re_match_Lit_iff.
  - apply re_match_glob_matches.
  - apply glob_matches_re_match.
Qed.

(** A dot in a pattern is a dot, and [*] may stand for nothing. *)
Example dot_is_literal :
  re_match (escape_and_globify "a.c") "abc" = false
  ∧ re_match (escape_and_globify "a.c") "a.c" = true
  ∧ re_match (escape_and_globify "*@corp.com") "@corp.com" = true
  ∧ re_match (escape_and_globify "*@corp.com") "alice@corp.com" = true
  ∧ re_match (escape_and_globify "*@corp.com") "alice@corp.com.org" = false
  ∧ re_match (escape_and_globify "*") ".*+?[](){}^$|\\" = true.
Proof. repeat split; reflexivity. Qed.

End PatternCompiler.

(** ** Rules *)

Section Rules.

Import regular_exp.

Lemma all_match_true (m : gmap (list Token) string) :
  all_match m = true
  ↔ ∀ regex value, m !! regex = Some value → re_match regex value = true.
Proof. unfold all_match. rewrite bool_decide_eq_true. reflexivity. Qed.

Lemma all_match_empty : all_match ∅ = true.
Proof. apply all_match_true. intros regex value H. simplify_map_eq. Qed.

(** A pair under a new key adds one more match to check. *)
Lemma all_match_insert_fresh (m : gmap (list Token) string) regex value :
  m !! regex = None →
  all_match (<[regex := value]> m) = re_match regex value && all_match m.
Proof.
  intros Hfresh. apply Bool.eq_iff_eq_true.
  rewrite andb_true_iff. unfold all_match. split.
  - intros H. apply bool_decide_eq_true in H.
    apply map_Forall_insert in H as [Hk Hm]; [|exact Hfresh].
    split; [exact Hk|]. apply bool_decide_eq_true, Hm.
  - intros [Hk Hm]. apply bool_decide_eq_true in Hm.
    apply bool_decide_eq_true, map_Forall_insert; [exact Hfresh|].
    split; assumption.
Qed.

(** A pair under a key already present replaces the earlier pair. *)
Lemma all_match_insert_again (m : gmap (list Token) string) regex value value' :
  all_match (<[regex := value]> (<[regex := value']> m))
  = all_match (<[regex := value]> m).
Proof. rewrite insert_insert_eq. reflexivity. Qed.

Lemma _is_applicable_distinct (rule : Rule.t) (acl : Acl) :
  bq_acls.dataset_id (bigquery_acl (Rule.rules rule))
    ≠ bq_acls.role (bigquery_acl (Rule.rules rule)) →
  Rule._is_applicable rule acl
  = re_match (bq_acls.dataset_id (bigquery_acl (Rule.rules rule)))
             (bq_acls.dataset_id acl)
    && re_match (bq_acls.role (bigquery_acl (Rule.rules rule)))
                (bq_acls.role acl).
Proof.
  intros Hne. unfold Rule._is_applicable, Rule.applicable_regex_to_val.
  cbv zeta.
  rewrite all_match_insert_fresh
    by (rewrite lookup_insert_ne by exact Hne; apply lookup_empty).
  rewrite all_match_insert_fresh by apply lookup_empty.
  rewrite all_match_empty, andb_true_r. apply andb_comm.
Qed.

Lemma _is_applicable_same (rule : Rule.t) (acl : Acl) :
  bq_acls.dataset_id (bigquery_acl (Rule.rules rule))
    = bq_acls.role (bigquery_acl (Rule.rules rule)) →
  Rule._is_applicable rule acl
  = re_match (bq_acls.role (bigquery_acl (Rule.rules rule)))
             (bq_acls.role acl).
Proof.
  intros Heq. unfold Rule._is_applicable, Rule.applicable_regex_to_val.
  cbv zeta. rewrite Heq, all_match_insert_again.
  rewrite all_match_insert_fresh by apply lookup_empty.
  rewrite all_match_empty. apply andb_true_r.
Qed.

Lemma not_applicable_no_violation (rule : Rule.t) (acl : Acl) :
  Rule._is_applicable rule acl = false →
  Rule.find_policy_violations rule acl = [].
Proof.
  intros H. unfold Rule.find_policy_violations. rewrite H. reflexivity.
Qed.

Lemma applicable_find_policy_violations (rule : Rule.t) (acl : Acl) :
  Rule._is_applicable rule acl = true →
  Rule.find_policy_violations rule acl
  = if Rule.has_violation rule acl then [Rule.violation rule acl] else [].
Proof.
  intros H. unfold Rule.find_policy_violations. rewrite H. reflexivity.
Qed.

Lemma has_violation_mode (rule : Rule.t) (acl : Acl) :
  Rule.has_violation rule acl
  = match mode (Rule.rules rule) with
    | BLACKLIST => Rule.all_matched rule acl
    | WHITELIST => negb (Rule.all_matched rule acl)
    end.
Proof.
  unfold Rule.has_violation.
  destruct (mode (Rule.rules rule)), (Rule.all_matched rule acl);
    reflexivity.
Qed.

(** X14.  What the mode does with the value the code computes.  On an
    entry the rule is applicable to, with [all_matched] the result of
    [all_match] on the dictionary that [find_policy_violations] builds
    from the four pairs (in which pairs with equal patterns are one
    pair, the last one written): a BLACKLIST rule flags a violation, and
    yields one, iff [all_matched] is true; a WHITELIST rule iff it is
    false; and a rule with the same six field patterns and the other
    mode, whatever its name, index and resource, is applicable too and
    flags a violation exactly when this one does not. *)
Theorem X14_mode_decides_violation (rule : Rule.t) (acl : Acl) :
  Rule._is_applicable rule acl = true →
  let patterns := bigquery_acl (Rule.rules rule) in
  let all_matched :=
    all_match
      (<[bq_acls.group_email patterns := bq_acls.group_email acl]>
        (<[bq_acls.domain patterns := bq_acls.domain acl]>
          (<[bq_acls.user_email patterns := bq_acls.user_email acl]>
            (<[bq_acls.special_group patterns
                 := bq_acls.special_group acl]> ∅)))) in
  (mode (Rule.rules rule) = BLACKLIST →
     Rule.has_violation rule acl = all_matched
     ∧ (Rule.find_policy_violations rule acl ≠ [] ↔ all_matched = true))
  ∧ (mode (Rule.rules rule) = WHITELIST →
     Rule.has_violation rule acl = negb all_matched
     ∧ (Rule.find_policy_violations rule acl ≠ [] ↔ all_matched = false))
  ∧ (∀ other : Rule.t,
       bq_acls.dataset_id (bigquery_acl (Rule.rules other))
       = bq_acls.dataset_id patterns →
       bq_acls.role (bigquery_acl (Rule.rules other))
       = bq_acls.role patterns →
       bq_acls.special_group (bigquery_acl (Rule.rules other))
       = bq_acls.special_group patterns →
       bq_acls.user_email (bigquery_acl (Rule.rules other))
       = bq_acls.user_email patterns →
       bq_acls.domain (bigquery_acl (Rule.rules other))
       = bq_acls.domain patterns →
       bq_acls.group_email (bigquery_acl (Rule.rules other))
       = bq_acls.group_email patterns →
       mode (Rule.rules other) ≠ mode (Rule.rules rule) →
       Rule._is_applicable other acl = true
       ∧ Rule.has_violation other acl = negb (Rule.has_violation rule acl)
       ∧ (Rule.find_policy_violations other acl ≠ []
          ↔ Rule.find_policy_violations rule acl = [])).
Proof.
  intros Happ patterns all_matched.
  assert (Hall : all_matched = Rule.all_matched rule acl) by reflexivity.
  rewrite Hall. clear Hall all_matched. subst patterns.
  rewrite (applicable_find_policy_violations rule acl Happ).
  rewrite (has_violation_mode rule acl).
  split; [|split].
  - intros ->. split; [reflexivity|].
    destruct (Rule.all_matched rule acl); split; congruence.
  - intros ->. split; [reflexivity|].
    destruct (Rule.all_matched rule acl); cbn; split; congruence.
  - intros other Hds Hrole Hsg Hue Hdom Hge Hmode.
    assert (Happ' : Rule._is_applicable other acl = true).
    { unfold Rule._is_applicable, Rule.applicable_regex_to_val in *.
      cbv zeta in *. rewrite Hds, Hrole. exact Happ. }
    assert (Hsame : Rule.all_matched other acl = Rule.all_matched rule acl).
    { unfold Rule.all_matched, Rule.rule_regex_to_val. cbv zeta.
      rewrite Hsg, Hue, Hdom, Hge. reflexivity. }
    rewrite (applicable_find_policy_violations other acl Happ').
    rewrite (has_violation_mode other acl), Hsame.
    split; [exact Happ'|].
    destruct (mode (Rule.rules other)), (mode (Rule.rules rule)),
      (Rule.all_matched rule acl); cbn;
      try congruence; (split; [reflexivity | split; congruence]).
Qed.

(** Scenario 1: the blacklist rule flags the external owner, and the
    same definition compiled as a whitelist rule for another resource
    does not. *)
Lemma X14_mode_decides_violation_witness :
  Rule.has_violation rule_no_external_owner acl_external = true
  ∧ Rule.find_policy_violations rule_no_external_owner acl_external ≠ []
  ∧ Rule.has_violation rule_external_owner_only acl_external
    = negb (Rule.has_violation rule_no_external_owner acl_external).
Proof.
  pose proof (X14_mode_decides_violation rule_no_external_owner acl_external
                eq_refl) as (Hblack & _ & Hother).
  destruct (Hblack eq_refl) as [Hflag Hyield].
  split; [|split].
  - rewrite Hflag. vm_compute. reflexivity.
  - apply Hyield. vm_compute. reflexivity.
  - apply (Hother rule_external_owner_only); try reflexivity.
    discriminate.
Defined.

(** C1, at the rules compiled from [def_not_evil] and from its whitelist
    twin: their [user_email] and [group_email] patterns are the same
    compiled pattern, so the dictionary of [find_policy_violations]
    holds the [group_email] pair in place of the [user_email] pair (and
    likewise one pair for the two ["*"] patterns).  The entry's
    user_email ["alice@corp.com"] does not match the [user_email]
    pattern, so the four pairs do not all match; and yet [all_matched]
    is true, the BLACKLIST rule yields a violation and the WHITELIST
    rule yields none. *)
Theorem C1_blacklist_flags_when_user_email_mismatches :
  BigqueryRuleBook._build_rule sample_json_dumps def_not_evil 0
    project_scope = Ok rule_not_evil
  ∧ BigqueryRuleBook._build_rule sample_json_dumps def_only_evil 1
      project_scope = Ok rule_only_evil
  ∧ mode (Rule.rules rule_not_evil) = BLACKLIST
  ∧ mode (Rule.rules rule_only_evil) = WHITELIST
  ∧ re_match (bq_acls.special_group (bigquery_acl (Rule.rules rule_not_evil)))
             (bq_acls.special_group acl_alice_in_evil_group) = true
  ∧ re_match (bq_acls.user_email (bigquery_acl (Rule.rules rule_not_evil)))
             (bq_acls.user_email acl_alice_in_evil_group) = false
  ∧ re_match (bq_acls.domain (bigquery_acl (Rule.rules rule_not_evil)))
             (bq_acls.domain acl_alice_in_evil_group) = true
  ∧ re_match (bq_acls.group_email (bigquery_acl (Rule.rules rule_not_evil)))
             (bq_acls.group_email acl_alice_in_evil_group) = true
  ∧ Rule._is_applicable rule_not_evil acl_alice_in_evil_group = true
  ∧ Rule._is_applicable rule_only_evil acl_alice_in_evil_group = true
  ∧ Rule.all_matched rule_not_evil acl_alice_in_evil_group = true
  ∧ Rule.find_policy_violations rule_not_evil acl_alice_in_evil_group
    = [Rule.violation rule_not_evil acl_alice_in_evil_group]
  ∧ Rule.find_policy_violations rule_only_evil acl_alice_in_evil_group = [].
Proof. repeat split; vm_compute; reflexivity. Qed.

(** C2, at the rule compiled from [def_same_pattern]: its [dataset_id]
    pattern and its upper-cased [role] pattern are the same compiled
    pattern, so the dictionary of the applicability check holds the
    [role] pair alone.  The entry's dataset_id ["ds1"] does not match the
    rule's dataset_id pattern, and yet the rule is applicable and yields
    a violation. *)
Theorem C2_applicable_when_dataset_id_mismatches :
  BigqueryRuleBook._build_rule sample_json_dumps def_same_pattern 0
    project_scope = Ok rule_same_pattern
  ∧ re_match (bq_acls.dataset_id (bigquery_acl (Rule.rules rule_same_pattern)))
             (bq_acls.dataset_id acl_external) = false
  ∧ re_match (bq_acls.role (bigquery_acl (Rule.rules rule_same_pattern)))
             (bq_acls.role acl_external) = true
  ∧ Rule._is_applicable rule_same_pattern acl_external = true
  ∧ Rule.find_policy_violations rule_same_pattern acl_external
    = [Rule.violation rule_same_pattern acl_external].
Proof. repeat split; vm_compute; reflexivity. Qed.

(** C6.  An applicable entry that the rule decides is a violation yields
    exactly one record: the fixed violation type, name and index of the
    rule, the entry's dataset_id as resource_id, the BIGQUERY resource
    type, and every other field from the entry. *)
Theorem C6_one_violation_record (rule : Rule.t) (acl : Acl) :
  Rule._is_applicable rule acl = true →
  Rule.has_violation rule acl = true →
  ∃ v : RuleViolation.t,
    Rule.find_policy_violations rule acl = [v]
    ∧ RuleViolation.violation_type v = "BIGQUERY_VIOLATION"
    ∧ RuleViolation.rule_name v = Rule.rule_name rule
    ∧ RuleViolation.rule_index v = Rule.rule_index rule
    ∧ RuleViolation.resource_id v = bq_acls.dataset_id acl
    ∧ RuleViolation.resource_type v = resource_mod.BIGQUERY
    ∧ RuleViolation.full_name v = bq_acls.full_name acl
    ∧ RuleViolation.dataset_id v = bq_acls.dataset_id acl
    ∧ RuleViolation.role v = bq_acls.role acl
    ∧ RuleViolation.special_group v = bq_acls.special_group acl
    ∧ RuleViolation.user_email v = bq_acls.user_email acl
    ∧ RuleViolation.domain v = bq_acls.domain acl
    ∧ RuleViolation.group_email v = bq_acls.group_email acl
    ∧ RuleViolation.view v = bq_acls.view acl
    ∧ RuleViolation.resource_data v = bq_acls.json acl.
Proof.
  intros Happ Hviol. exists (Rule.violation rule acl).
  rewrite (applicable_find_policy_violations rule acl Happ), Hviol.
  repeat split.
Qed.

Lemma C6_one_violation_record_witness :
  ∃ v : RuleViolation.t,
    Rule.find_policy_violations rule_no_external_owner acl_external = [v]
    ∧ RuleViolation.violation_type v = "BIGQUERY_VIOLATION"
    ∧ RuleViolation.rule_name v = Some "no external owners"
    ∧ RuleViolation.rule_index v = 0
    ∧ RuleViolation.resource_id v = "ds1"
    ∧ RuleViolation.resource_type v = resource_mod.BIGQUERY
    ∧ RuleViolation.full_name v = bq_acls.full_name acl_external
    ∧ RuleViolation.dataset_id v = "ds1"
    ∧ RuleViolation.role v = "OWNER"
    ∧ RuleViolation.special_group v = ""
    ∧ RuleViolation.user_email v = ""
    ∧ RuleViolation.domain v = "external.com"
    ∧ RuleViolation.group_email v = ""
    ∧ RuleViolation.view v = ∅
    ∧ RuleViolation.resource_data v = "{}".
Proof.
  apply (C6_one_violation_record rule_no_external_owner acl_external);
    vm_compute; reflexivity.
Defined.

End Rules.

(** ** Building a rule *)

Section BuildRule.

Import regular_exp.

Variable json_dumps : RawResource.t → string.

Lemma upper_char_idempotent (c : ascii) :
  upper_char (upper_char c) = upper_char c.
Proof. destruct c as [[] [] [] [] [] [] [] []]; reflexivity. Qed.

Lemma upper_idempotent (s : string) : upper (upper s) = upper s.
Proof.
  induction s as [|c s IH]; [reflexivity|].
  cbn [upper]. rewrite upper_char_idempotent, IH. reflexivity.
Qed.

Lemma upper_char_star (c : ascii) :
  Ascii.eqb (upper_char c) star_char = Ascii.eqb c star_char.
Proof. destruct c as [[] [] [] [] [] [] [] []]; reflexivity. Qed.

Lemma has_star_upper (s : string) : has_star (upper s) = has_star s.
Proof.
  induction s as [|c s IH]; [reflexivity|].
  cbn [upper has_star]. rewrite upper_char_star, IH. reflexivity.
Qed.

(** What [_build_rule] returns, by the mode of the definition. *)
Lemma _build_rule_mode (rule_def : RuleDef.t) (rule_index : nat)
    (raw_resource : RawResource.t) (rule_mode : Mode) :
  (if truthy_str (RuleDef.mode rule_def)
   then Mode_of_value (default "" (RuleDef.mode rule_def))
   else Ok BLACKLIST) = Ok rule_mode →
  ∃ rule,
    BigqueryRuleBook._build_rule json_dumps rule_def rule_index raw_resource
    = Ok rule
    ∧ mode (Rule.rules rule) = rule_mode
    ∧ Rule.rule_name rule = RuleDef.name rule_def
    ∧ Rule.rule_index rule = rule_index
    ∧ bq_acls.dataset_id (bigquery_acl (Rule.rules rule))
      = escape_and_globify (default "*" (RuleDef.dataset_id rule_def))
    ∧ bq_acls.special_group (bigquery_acl (Rule.rules rule))
      = escape_and_globify (default "*" (RuleDef.special_group rule_def))
    ∧ bq_acls.user_email (bigquery_acl (Rule.rules rule))
      = escape_and_globify (default "*" (RuleDef.user_email rule_def))
    ∧ bq_acls.domain (bigquery_acl (Rule.rules rule))
      = escape_and_globify (default "*" (RuleDef.domain rule_def))
    ∧ bq_acls.group_email (bigquery_acl (Rule.rules rule))
      = escape_and_globify (default "*" (RuleDef.group_email rule_def))
    ∧ bq_acls.role (bigquery_acl (Rule.rules rule))
      = escape_and_globify (upper (default "*" (RuleDef.role rule_def))).
Proof.
  intros Hmode. unfold BigqueryRuleBook._build_rule. cbv zeta.
  rewrite Hmode. eexists. repeat split.
Qed.

Lemma _build_rule_raises (rule_def : RuleDef.t) (rule_index : nat)
    (raw_resource : RawResource.t) (e : exn) :
  (if truthy_str (RuleDef.mode rule_def)
   then Mode_of_value (default "" (RuleDef.mode rule_def))
   else Ok BLACKLIST) = Raise e →
  BigqueryRuleBook._build_rule json_dumps rule_def rule_index raw_resource
  = Raise e.
Proof.
  intros Hmode. unfold BigqueryRuleBook._build_rule. cbv zeta.
  rewrite Hmode. reflexivity.
Qed.

Lemma Mode_of_value_raises (value : string) (e : exn) :
  Mode_of_value value = Raise e
  ↔ value ≠ "whitelist" ∧ value ≠ "blacklist" ∧ e = ValueError value.
Proof.
  unfold Mode_of_value.
  destruct (String.eqb_spec value "whitelist") as [->|Hw].
  { split; [discriminate | intros [H _]; congruence]. }
  destruct (String.eqb_spec value "blacklist") as [->|Hb].
  { split; [discriminate | intros (_ & H & _); congruence]. }
  split; [intros [= <-]; auto | intros (_ & _ & ->); reflexivity].
Qed.

(** C7.  The role pattern of a compiled rule is compiled from the
    upper-cased role string of the definition, the other five patterns
    from their strings as they are.  So a role pattern ["owner"] matches
    the entry role ["OWNER"] and not ["owner"]; and a role pattern
    without [*] matches exactly the upper-cased role string, which is a
    value already in upper case. *)
Theorem C7_role_pattern_is_upper_cased (rule_def : RuleDef.t)
    (rule_index : nat) (raw_resource : RawResource.t) (rule : Rule.t) :
  BigqueryRuleBook._build_rule json_dumps rule_def rule_index raw_resource
  = Ok rule →
  let patterns := bigquery_acl (Rule.rules rule) in
  let raw_role := default "*" (RuleDef.role rule_def) in
  bq_acls.role patterns = escape_and_globify (upper raw_role)
  ∧ bq_acls.dataset_id patterns
    = escape_and_globify (default "*" (RuleDef.dataset_id rule_def))
  ∧ bq_acls.special_group patterns
    = escape_and_globify (default "*" (RuleDef.special_group rule_def))
  ∧ bq_acls.user_email patterns
    = escape_and_globify (default "*" (RuleDef.user_email rule_def))
  ∧ bq_acls.domain patterns
    = escape_and_globify (default "*" (RuleDef.domain rule_def))
  ∧ bq_acls.group_email patterns
    = escape_and_globify (default "*" (RuleDef.group_email rule_def))
  ∧ (RuleDef.role rule_def = Some "owner" →
     re_match (bq_acls.role patterns) "OWNER" = true
     ∧ re_match (bq_acls.role patterns) "owner" = false)
  ∧ (has_star raw_role = false →
     ∀ entry_role,
       re_match (bq_acls.role patterns) entry_role = true
       ↔ entry_role = upper raw_role)
  ∧ (has_star raw_role = false →
     ∀ entry_role,
       re_match (bq_acls.role patterns) entry_role = true →
       upper entry_role = entry_role).
Proof.
  intros Hbuild patterns raw_role.
  destruct (if truthy_str (RuleDef.mode rule_def)
            then Mode_of_value (default "" (RuleDef.mode rule_def))
            else Ok BLACKLIST) as [rule_mode|e] eqn:Hmode.
  2:{ rewrite (_build_rule_raises _ _ _ _ Hmode) in Hbuild.
      discriminate. }
  destruct (_build_rule_mode rule_def rule_index raw_resource rule_mode Hmode)
    as (rule' & Hbuild' & _ & _ & _ & Hds & Hsg & Hue & Hdom & Hge & Hrole).
  rewrite Hbuild in Hbuild'. injection Hbuild' as <-.
  subst patterns raw_role.
  assert (Hlit : has_star (default "*" (RuleDef.role rule_def)) = false →
                 ∀ entry_role,
                   re_match (bq_acls.role (bigquery_acl (Rule.rules rule)))
                            entry_role = true
                   ↔ entry_role = upper (default "*" (RuleDef.role rule_def))).
  { intros Hstar entry_role. rewrite Hrole.
    apply re_match_literal. rewrite has_star_upper. exact Hstar. }
  split; [exact Hrole|]. split; [exact Hds|]. split; [exact Hsg|].
  split; [exact Hue|]. split; [exact Hdom|]. split; [exact Hge|].
  split; [|split].
  - intros Howner. rewrite Hrole, Howner. split; reflexivity.
  - exact Hlit.
  - intros Hstar entry_role Hm.
    apply (Hlit Hstar entry_role) in Hm. subst entry_role.
    apply upper_idempotent.
Qed.

Lemma truthy_str_false (v : option string) :
  truthy_str v = false ↔ v = None ∨ v = Some "".
Proof.
  destruct v as [value|]; cbn.
  - rewrite negb_false_iff, String.eqb_eq. split.
    + intros ->. right. reflexivity.
    + intros [H|H]; congruence.
  - split; [left; reflexivity | reflexivity].
Qed.

(** C10.  A mode that is present and empty (or null) makes the rule a
    BLACKLIST rule and raises nothing; building a rule raises exactly
    when the mode is a non-empty string other than ["whitelist"] and
    ["blacklist"], and what it raises is the [ValueError] of [Mode]. *)
Theorem C10_falsy_mode_defaults_to_blacklist (rule_def : RuleDef.t)
    (rule_index : nat) (raw_resource : RawResource.t) :
  (RuleDef.mode rule_def = Some "" ∨ RuleDef.mode rule_def = None →
   ∃ rule,
     BigqueryRuleBook._build_rule json_dumps rule_def rule_index raw_resource
     = Ok rule
     ∧ mode (Rule.rules rule) = BLACKLIST)
  ∧ (∀ e,
       BigqueryRuleBook._build_rule json_dumps rule_def rule_index
         raw_resource = Raise e
       ↔ ∃ value,
           RuleDef.mode rule_def = Some value
           ∧ value ≠ ""
           ∧ value ≠ "whitelist"
           ∧ value ≠ "blacklist"
           ∧ e = ValueError value).
Proof.
  split.
  - intros Hfalsy.
    assert (Hf : truthy_str (RuleDef.mode rule_def) = false).
    { apply truthy_str_false. tauto. }
    destruct (_build_rule_mode rule_def rule_index raw_resource BLACKLIST)
      as (rule & Hbuild & Hmode & _).
    { rewrite Hf. reflexivity. }
    exists rule. split; assumption.
  - intros e.
    destruct (truthy_str (RuleDef.mode rule_def)) eqn:Htruthy.
    + destruct (RuleDef.mode rule_def) as [value|] eqn:Hdef;
        [|discriminate Htruthy].
      cbn in Htruthy. apply negb_true_iff, String.eqb_neq in Htruthy.
      destruct (Mode_of_value value) as [rule_mode|e'] eqn:Hvalue.
      * destruct (_build_rule_mode rule_def rule_index raw_resource rule_mode)
          as (rule & Hbuild & _).
        { rewrite Hdef. cbn. apply String.eqb_neq in Htruthy.
          rewrite Htruthy. exact Hvalue. }
        rewrite Hbuild. split; [discriminate|].
        intros (value' & [= <-] & _ & Hw & Hb & ->).
        assert (Hr : Mode_of_value value = Raise (ValueError value))
          by (apply Mode_of_value_raises; auto).
        congruence.
      * rewrite (_build_rule_raises rule_def rule_index raw_resource e').
        2:{ rewrite Hdef. cbn. apply String.eqb_neq in Htruthy.
            rewrite Htruthy. exact Hvalue. }
        apply Mode_of_value_raises in Hvalue as (Hw & Hb & ->).
        split.
        -- intros [= <-]. exists value. auto.
        -- intros (value' & [= <-] & _ & _ & _ & ->). reflexivity.
    + destruct (_build_rule_mode rule_def rule_index raw_resource BLACKLIST)
        as (rule & Hbuild & _).
      { rewrite Htruthy. reflexivity. }
      rewrite Hbuild. split; [discriminate|].
      intros (value & Hdef & Hne & _).
      apply truthy_str_false in Htruthy as [Hnone|Hempty]; congruence.
Qed.

End BuildRule.

(** The rule compiled from the definition with [role = "owner"]. *)
Lemma C7_role_pattern_is_upper_cased_witness :
  regular_exp.re_match (bq_acls.role (bigquery_acl (Rule.rules rule_same_pattern)))
    "OWNER" = true
  ∧ regular_exp.re_match (bq_acls.role (bigquery_acl (Rule.rules rule_same_pattern)))
      "owner" = false.
Proof.
  pose proof (C7_role_pattern_is_upper_cased sample_json_dumps
                def_same_pattern 0 project_scope rule_same_pattern eq_refl)
    as (_ & _ & _ & _ & _ & _ & Howner & _).
  apply Howner. reflexivity.
Defined.

(** The definition with [mode: ''] compiles to a blacklist rule. *)
Lemma C10_falsy_mode_defaults_to_blacklist_witness :
  ∃ rule,
    BigqueryRuleBook._build_rule sample_json_dumps def_empty_mode 3
      project_scope = Ok rule
    ∧ mode (Rule.rules rule) = BLACKLIST.
Proof.
  apply (C10_falsy_mode_defaults_to_blacklist sample_json_dumps
           def_empty_mode 3 project_scope).
  left. reflexivity.
Defined.

Example build_unknown_mode_raises :
  BigqueryRuleBook._build_rule sample_json_dumps def_unknown_mode 4
    project_scope = Raise (ValueError "greylist").
Proof. reflexivity. Qed.

(** ** The monad *)

Section Loops.

Context {St X : Type}.

Lemma for_each_app (xs ys : list X) (body : X → M St unit) (s : St) :
  for_each (xs ++ ys) body s
  = match for_each xs body s with
    | (s', Ok _) => for_each ys body s'
    | (s', Raise e) => (s', Raise e)
    end.
Proof.
  revert s. induction xs as [|x xs IH]; intros s; [reflexivity|].
  cbn [app for_each]. unfold bind.
  destruct (body x s) as [s1 [[]|e]]; [apply IH | reflexivity].
Qed.

(** A loop that only extends a local list by a value computed from each
    element leaves the state alone. *)
Lemma for_fold_extend {B : Type} (f : X → list B) (xs : list X)
    (acc : list B) (s : St) :
  for_fold xs acc (λ acc x, ret (acc ++ f x)) s
  = (s, Ok (acc ++ concat (map f xs))).
Proof.
  revert acc. induction xs as [|x xs IH]; intros acc.
  - cbn. rewrite app_nil_r. reflexivity.
  - cbn [for_fold map concat]. unfold bind, ret at 1.
    rewrite IH, app_assoc. reflexivity.
Qed.

End Loops.

(** ** Querying the rule book *)

Section Query.

Variable find_ancestors : Resource.t → string → list Resource.t.

Lemma get_registered_rules (res : Resource.t) (self : BigqueryRuleBook.t) :
  BigqueryRuleBook.get res [] self = (self, Ok (registered_rules self res)).
Proof.
  unfold BigqueryRuleBook.get, registered_rules.
  destruct (BigqueryRuleBook.resource_rules_map self !! Resource.key res);
    reflexivity.
Qed.

Lemma ancestors_loop (acl : Acl) (ancestors : list Resource.t)
    (acc : list RuleViolation.t) (self : BigqueryRuleBook.t) :
  for_fold ancestors acc
    (λ violations res,
       let! res_rules := BigqueryRuleBook.get res [] in
       for_fold res_rules violations
         (λ violations rule,
            ret (violations ++ Rule.find_policy_violations rule acl))) self
  = (self, Ok (acc ++ concatenated_violations self acl ancestors)).
Proof.
  revert acc. induction ancestors as [|res ancestors IH]; intros acc.
  - cbn. rewrite app_nil_r. reflexivity.
  - cbn [for_fold]. unfold bind at 1. unfold bind at 1.
    rewrite get_registered_rules.
    rewrite (for_fold_extend
               (λ rule, Rule.find_policy_violations rule acl)).
    rewrite IH. unfold concatenated_violations. cbn [map concat].
    rewrite app_assoc. reflexivity.
Qed.

Lemma find_policy_violations_eq (resource : Resource.t) (acl : Acl)
    (self : BigqueryRuleBook.t) :
  BigqueryRuleBook.find_policy_violations find_ancestors resource acl self
  = (self,
     Ok (concatenated_violations self acl
           (find_ancestors resource (Resource.full_name resource)))).
Proof.
  unfold BigqueryRuleBook.find_policy_violations. cbv zeta.
  rewrite ancestors_loop. reflexivity.
Qed.

(** C3.  The violations found for a resource are the violations of each
    of its ancestors, concatenated in the order the hierarchy resolver
    gives the ancestors, and within one ancestor in the order of its rule
    list; so whenever one ancestor comes before another in that order,
    all violations of the first come before all violations of the
    second. *)
Theorem C3_violations_in_ancestor_order (self : BigqueryRuleBook.t)
    (resource : Resource.t) (acl : Acl) :
  let ancestors := find_ancestors resource (Resource.full_name resource) in
  let found :=
    snd (BigqueryRuleBook.find_policy_violations find_ancestors resource
           acl self) in
  found
  = Ok (concat
          (map (λ res,
                  concat (map (λ rule, Rule.find_policy_violations rule acl)
                              (default []
                                 (BigqueryRuleBook.resource_rules_map self
                                    !! Resource.key res))))
               ancestors))
  ∧ ∀ pre closer mid farther post,
      ancestors = pre ++ closer :: mid ++ farther :: post →
      ∃ before between after,
        found
        = Ok (before ++ ancestor_violations self acl closer
                ++ between ++ ancestor_violations self acl farther
                ++ after).
Proof.
  intros ancestors found. subst found.
  rewrite find_policy_violations_eq. fold ancestors. cbn [snd].
  split; [reflexivity|].
  intros pre closer mid farther post ->.
  exists (concatenated_violations self acl pre),
         (concatenated_violations self acl mid),
         (concatenated_violations self acl post).
  unfold concatenated_violations.
  rewrite map_app, concat_app. cbn [map concat].
  rewrite map_app, concat_app. cbn [map concat].
  reflexivity.
Qed.

(** C9.  A query leaves the rule book as it was: the lookups are [get]s,
    which store nothing, where an indexing access [d[k]] of the
    default-dict would store an empty list under a missing key.  A
    resource none of whose ancestors has rules registered yields no
    violation. *)
Theorem C9_query_leaves_index_unchanged (self : BigqueryRuleBook.t)
    (resource : Resource.t) (acl : Acl) :
  fst (BigqueryRuleBook.find_policy_violations find_ancestors resource acl
         self) = self
  ∧ ((∀ res,
        res ∈ find_ancestors resource (Resource.full_name resource) →
        BigqueryRuleBook.resource_rules_map self !! Resource.key res = None) →
     BigqueryRuleBook.find_policy_violations find_ancestors resource acl self
     = (self, Ok []))
  ∧ (∀ k,
       BigqueryRuleBook.resource_rules_map self !! Resource.key k = None →
       BigqueryRuleBook.get k [] self = (self, Ok [])
       ∧ BigqueryRuleBook.resource_rules_map
           (fst (BigqueryRuleBook.getitem k self)) !! Resource.key k
         = Some []).
Proof.
  rewrite find_policy_violations_eq. split; [reflexivity|]. split.
  - intros Hnone. f_equal. f_equal.
    induction (find_ancestors resource (Resource.full_name resource))
      as [|res ancestors IH]; [reflexivity|].
    unfold concatenated_violations in *. cbn [map concat].
    rewrite IH by (intros r Hr; apply Hnone; right; exact Hr).
    unfold ancestor_violations, registered_rules.
    rewrite (Hnone res) by left. reflexivity.
  - intros k Hk. unfold BigqueryRuleBook.get, BigqueryRuleBook.getitem.
    rewrite Hk. cbn. split; [reflexivity|]. apply lookup_insert_eq.
Qed.

End Query.

(** Scenario 4: the violation of the rule on [proj-1] comes before the
    violation of the rule on [org-1]. *)
Lemma C3_violations_in_ancestor_order_witness :
  ∃ before between after,
    snd (BigqueryRuleBook.find_policy_violations sample_find_ancestors
           proj_1 acl_external_bob sample_book)
    = Ok (before ++ ancestor_violations sample_book acl_external_bob proj_1
            ++ between
            ++ ancestor_violations sample_book acl_external_bob org_1
            ++ after).
Proof.
  apply (proj2 (C3_violations_in_ancestor_order sample_find_ancestors
                  sample_book proj_1 acl_external_bob)
           [] proj_1 [] org_1 []).
  reflexivity.
Defined.

Example scenario_4 :
  snd (BigqueryRuleBook.find_policy_violations sample_find_ancestors
         proj_1 acl_external_bob sample_book)
  = Ok [Rule.violation rule_no_external_owner acl_external_bob;
        Rule.violation rule_corp_only acl_external_bob].
Proof. vm_compute. reflexivity. Qed.

(** A query on a book without rules. *)
Lemma C9_query_leaves_index_unchanged_witness :
  BigqueryRuleBook.find_policy_violations sample_find_ancestors proj_1
    acl_external_bob empty_book
  = (empty_book, Ok []).
Proof.
  apply (C9_query_leaves_index_unchanged sample_find_ancestors empty_book
           proj_1 acl_external_bob).
  intros res _. apply lookup_empty.
Defined.

(** ** Adding rules *)

Section AddRule.

Variable json_dumps : RawResource.t → string.

Lemma for_each_enumerate_app {St X : Type} (xs ys : list X)
    (body : X → nat → M St unit) (i : nat) (s : St) :
  for_each_enumerate i (xs ++ ys) body s
  = match for_each_enumerate i xs body s with
    | (s', Ok _) => for_each_enumerate (i + length xs) ys body s'
    | (s', Raise e) => (s', Raise e)
    end.
Proof.
  revert i s. induction xs as [|x xs IH]; intros i s.
  - cbn. rewrite Nat.add_0_r. reflexivity.
  - cbn [app for_each_enumerate length]. unfold bind.
    destruct (body x i s) as [s1 [[]|e]]; [|reflexivity].
    rewrite IH. replace (S i + length xs) with (i + S (length xs)) by lia.
    reflexivity.
Qed.

(** [add_rule] up to the first resource entry without ids: it does what
    it does on the entries before it, and raises. *)
Lemma add_rule_prefix (rule_def : RuleDef.t) (rule_index : nat)
    (self : BigqueryRuleBook.t) (before after : list RawResource.t)
    (bad : RawResource.t) :
  RuleDef.resource rule_def = Some (before ++ bad :: after) →
  BigqueryRuleBook.missing_ids (RawResource.resource_ids bad) = true →
  BigqueryRuleBook.add_rule json_dumps rule_def rule_index self
  = match BigqueryRuleBook.add_rule json_dumps
            (with_resource rule_def before) rule_index self with
    | (indexed, Ok _) => (indexed, Raise (InvalidRulesSchemaError rule_index))
    | (indexed, Raise e) => (indexed, Raise e)
    end.
Proof.
  intros Hres Hbad. unfold BigqueryRuleBook.add_rule.
  rewrite Hres. cbn [with_resource RuleDef.resource].
  rewrite for_each_app.
  change (BigqueryRuleBook._build_rule json_dumps
            (with_resource rule_def before))
    with (BigqueryRuleBook._build_rule json_dumps rule_def).
  match goal with
  | |- context [for_each before ?body self] =>
      destruct (for_each before body self) as [indexed [[]|e]]
  end; [|reflexivity].
  cbn [for_each]. unfold bind. rewrite Hbad. reflexivity.
Qed.

Lemma add_rule_raises (rule_def : RuleDef.t) (rule_index : nat)
    (self : BigqueryRuleBook.t) (before after : list RawResource.t)
    (bad : RawResource.t) :
  RuleDef.resource rule_def = Some (before ++ bad :: after) →
  BigqueryRuleBook.missing_ids (RawResource.resource_ids bad) = true →
  ∃ e,
    BigqueryRuleBook.add_rule json_dumps rule_def rule_index self
    = (fst (BigqueryRuleBook.add_rule json_dumps
              (with_resource rule_def before) rule_index self),
       Raise e)
    ∧ (is_ok (snd (BigqueryRuleBook.add_rule json_dumps
                     (with_resource rule_def before) rule_index self)) = true →
       e = InvalidRulesSchemaError rule_index).
Proof.
  intros Hres Hbad.
  rewrite (add_rule_prefix rule_def rule_index self before after bad Hres Hbad).
  destruct (BigqueryRuleBook.add_rule json_dumps
              (with_resource rule_def before) rule_index self)
    as [indexed [[]|e]]; cbn.
  - eexists. split; reflexivity.
  - exists e. split; [reflexivity | discriminate].
Qed.

(** Building a book from a file that has such a definition raises. *)
Lemma __init___raises (rule_def : RuleDef.t)
    (defs_before defs_after : list RuleDef.t)
    (before after : list RawResource.t) (bad : RawResource.t) :
  RuleDef.resource rule_def = Some (before ++ bad :: after) →
  BigqueryRuleBook.missing_ids (RawResource.resource_ids bad) = true →
  ∃ e,
    BigqueryRuleBook.__init__ json_dumps
      (Some {| RuleDefs.rules := Some (defs_before ++ rule_def :: defs_after) |})
    = Raise e.
Proof.
  intros Hres Hbad. unfold BigqueryRuleBook.__init__.
  cbn [BigqueryRuleBook.no_defs RuleDefs.rules].
  unfold BigqueryRuleBook.add_rules. cbn [RuleDefs.rules default id].
  rewrite for_each_enumerate_app.
  match goal with
  | |- context [for_each_enumerate 0 defs_before ?body ?s] =>
      destruct (for_each_enumerate 0 defs_before body s) as [s1 [[]|e]]
  end.
  - cbn [for_each_enumerate]. unfold bind at 1.
    destruct (add_rule_raises rule_def (0 + length defs_before) s1
                before after bad Hres Hbad) as (e & -> & _).
    exists e. reflexivity.
  - exists e. reflexivity.
Qed.

End AddRule.

(** ** The engine *)

Section Engine.

Variable json_dumps : RawResource.t → string.
Variable find_ancestors : Resource.t → string → list Resource.t.
Variable rules_file : string → option RuleDefs.t.

Lemma build_rule_book_eq (w : BigqueryRulesEngine.World) :
  BigqueryRulesEngine.build_rule_book json_dumps rules_file w
  = match BigqueryRuleBook.__init__ json_dumps
            (rules_file
               (BigqueryRulesEngine.rules_file_path
                  (BigqueryRulesEngine.self w))) with
    | Ok fresh =>
        ({| BigqueryRulesEngine.self :=
              {| BigqueryRulesEngine.rules_file_path :=
                   BigqueryRulesEngine.rules_file_path
                     (BigqueryRulesEngine.self w);
                 BigqueryRulesEngine.rule_book := Some fresh |};
            BigqueryRulesEngine.loads := S (BigqueryRulesEngine.loads w) |},
         Ok tt)
    | Raise e =>
        ({| BigqueryRulesEngine.self := BigqueryRulesEngine.self w;
            BigqueryRulesEngine.loads := S (BigqueryRulesEngine.loads w) |},
         Raise e)
    end.
Proof.
  unfold BigqueryRulesEngine.build_rule_book,
    BigqueryRulesEngine._load_rule_definitions, bind, lift.
  destruct (BigqueryRuleBook.__init__ json_dumps _); reflexivity.
Qed.

(** C4, as the code has it.  [add_rule] on a definition with a resource
    entry that has no ids raises; what it indexed for the entries before
    that one stays indexed, and nothing is indexed for that entry or a
    later one; the index is as it was when the entry is the first.  A
    build through the engine that meets such a definition raises and
    installs nothing: the rule book of the engine stays the one it
    was. *)
Theorem C4_add_rule_stops_at_missing_ids (rule_def : RuleDef.t)
    (rule_index : nat) (book : BigqueryRuleBook.t)
    (before after : list RawResource.t) (bad : RawResource.t) :
  RuleDef.resource rule_def = Some (before ++ bad :: after) →
  BigqueryRuleBook.missing_ids (RawResource.resource_ids bad) = true →
  (∃ e,
     BigqueryRuleBook.add_rule json_dumps rule_def rule_index book
     = (fst (BigqueryRuleBook.add_rule json_dumps
               (with_resource rule_def before) rule_index book),
        Raise e)
     ∧ (is_ok (snd (BigqueryRuleBook.add_rule json_dumps
                      (with_resource rule_def before) rule_index book))
        = true →
        e = InvalidRulesSchemaError rule_index))
  ∧ (before = [] →
     BigqueryRuleBook.add_rule json_dumps rule_def rule_index book
     = (book, Raise (InvalidRulesSchemaError rule_index)))
  ∧ (∀ (w : BigqueryRulesEngine.World) defs_before defs_after,
       rules_file
         (BigqueryRulesEngine.rules_file_path (BigqueryRulesEngine.self w))
       = Some {| RuleDefs.rules :=
                   Some (defs_before ++ rule_def :: defs_after) |} →
       ∃ e,
         BigqueryRulesEngine.build_rule_book json_dumps rules_file w
         = ({| BigqueryRulesEngine.self := BigqueryRulesEngine.self w;
               BigqueryRulesEngine.loads :=
                 S (BigqueryRulesEngine.loads w) |},
            Raise e)).
Proof.
  intros Hres Hbad. split; [|split].
  - apply (add_rule_raises json_dumps rule_def rule_index book before after
             bad Hres Hbad).
  - intros ->.
    rewrite (add_rule_prefix json_dumps rule_def rule_index book [] after bad
               Hres Hbad).
    reflexivity.
  - intros w defs_before defs_after Hfile.
    rewrite build_rule_book_eq, Hfile.
    destruct (__init___raises json_dumps rule_def defs_before defs_after
                before after bad Hres Hbad) as [e ->].
    exists e. reflexivity.
Qed.

Lemma find_policy_violations_engine_eq (w : BigqueryRulesEngine.World)
    (parent_project : Resource.t) (acl : Acl) (force_rebuild : bool) :
  BigqueryRulesEngine.find_policy_violations json_dumps find_ancestors
    rules_file parent_project acl force_rebuild w
  = let engine := BigqueryRulesEngine.self w in
    let ancestors :=
      find_ancestors parent_project (Resource.full_name parent_project) in
    if bool_decide (BigqueryRulesEngine.rule_book engine = None)
       || force_rebuild
    then
      match BigqueryRuleBook.__init__ json_dumps
              (rules_file (BigqueryRulesEngine.rules_file_path engine)) with
      | Ok fresh =>
          ({| BigqueryRulesEngine.self :=
                {| BigqueryRulesEngine.rules_file_path :=
                     BigqueryRulesEngine.rules_file_path engine;
                   BigqueryRulesEngine.rule_book := Some fresh |};
              BigqueryRulesEngine.loads := S (BigqueryRulesEngine.loads w) |},
           Ok (concatenated_violations fresh acl ancestors))
      | Raise e =>
          ({| BigqueryRulesEngine.self := engine;
              BigqueryRulesEngine.loads := S (BigqueryRulesEngine.loads w) |},
           Raise e)
      end
    else
      match BigqueryRulesEngine.rule_book engine with
      | Some installed =>
          (w, Ok (concatenated_violations installed acl ancestors))
      | None => (w, Raise AttributeError)
      end.
Proof.
  unfold BigqueryRulesEngine.find_policy_violations.
  unfold bind at 1. cbv beta iota zeta.
  destruct (bool_decide
              (BigqueryRulesEngine.rule_book (BigqueryRulesEngine.self w)
               = None) || force_rebuild).
  - unfold bind at 1. rewrite build_rule_book_eq.
    destruct (BigqueryRuleBook.__init__ json_dumps _) as [fresh|e];
      [|reflexivity].
    unfold bind, BigqueryRulesEngine.on_rule_book, ret. cbn.
    rewrite find_policy_violations_eq. reflexivity.
  - unfold bind, BigqueryRulesEngine.on_rule_book, ret. cbn.
    destruct w as [[path [installed|]] n]; cbn; [|reflexivity].
    rewrite find_policy_violations_eq. reflexivity.
Qed.

(** Settles an equivalence between a count of loads and the condition
    for a rebuild, once both sides are closed. *)
Ltac loads_iff :=
  split;
  [ intros H;
    first [ exfalso; lia
          | left; reflexivity
          | right; reflexivity
          | split; [discriminate | reflexivity] ]
  | intros H;
    first [ reflexivity
          | destruct H as [H|H]; discriminate
          | destruct H as [H1 H2];
            first [ discriminate | exfalso; apply H1; reflexivity ] ] ].

(** C8.  The engine loads the rules file and builds a fresh rule book
    exactly when it has no rule book or a rebuild is forced.  A build
    that succeeds replaces the installed book, and the query is answered
    by the fresh book; a build that raises leaves the engine as it was
    and the exception is the result.  Without a build the engine is
    unchanged and the query is answered by the installed book. *)
Theorem C8_rebuild_iff_unbuilt_or_forced (w : BigqueryRulesEngine.World)
    (parent_project : Resource.t) (acl : Acl) (force_rebuild : bool) :
  let engine := BigqueryRulesEngine.self w in
  let rebuild :=
    bool_decide (BigqueryRulesEngine.rule_book engine = None)
    || force_rebuild in
  let after :=
    BigqueryRulesEngine.find_policy_violations json_dumps find_ancestors
      rules_file parent_project acl force_rebuild w in
  (BigqueryRulesEngine.loads (fst after) = S (BigqueryRulesEngine.loads w)
   ↔ BigqueryRulesEngine.rule_book engine = None ∨ force_rebuild = true)
  ∧ (BigqueryRulesEngine.loads (fst after) = BigqueryRulesEngine.loads w
     ↔ BigqueryRulesEngine.rule_book engine ≠ None ∧ force_rebuild = false)
  ∧ (if rebuild
     then
       match BigqueryRuleBook.__init__ json_dumps
               (rules_file (BigqueryRulesEngine.rules_file_path engine)) with
       | Ok fresh =>
           BigqueryRulesEngine.self (fst after)
           = {| BigqueryRulesEngine.rules_file_path :=
                  BigqueryRulesEngine.rules_file_path engine;
                BigqueryRulesEngine.rule_book := Some fresh |}
           ∧ snd after
             = snd (BigqueryRuleBook.find_policy_violations find_ancestors
                      parent_project acl fresh)
       | Raise e =>
           BigqueryRulesEngine.self (fst after) = engine
           ∧ snd after = Raise e
       end
     else
       fst after = w
       ∧ ∃ installed,
           BigqueryRulesEngine.rule_book engine = Some installed
           ∧ snd after
             = snd (BigqueryRuleBook.find_policy_violations find_ancestors
                      parent_project acl installed)).
Proof.
  intros engine rebuild after. subst engine rebuild after.
  rewrite find_policy_violations_engine_eq.
  destruct w as [[path [installed|]] n]; cbn [BigqueryRulesEngine.self
    BigqueryRulesEngine.rule_book BigqueryRulesEngine.rules_file_path
    BigqueryRulesEngine.loads].
  - rewrite bool_decide_eq_false_2 by discriminate. cbn [orb].
    destruct force_rebuild.
    + destruct (BigqueryRuleBook.__init__ json_dumps (rules_file path))
        as [fresh|e]; cbn;
        (split; [loads_iff|]); (split; [loads_iff|]);
        rewrite ?find_policy_violations_eq; split; reflexivity.
    + cbn. split; [loads_iff|]. split; [loads_iff|]. split; [reflexivity|].
      exists installed. rewrite find_policy_violations_eq.
      split; reflexivity.
  - rewrite bool_decide_eq_true_2 by reflexivity. cbn [orb].
    destruct (BigqueryRuleBook.__init__ json_dumps (rules_file path))
      as [fresh|e]; cbn;
      (split; [loads_iff|]); (split; [loads_iff|]);
      rewrite ?find_policy_violations_eq; split; reflexivity.
Qed.

End Engine.

(** Scenario 5, with a first resource entry that is in order: the rule is
    indexed under [proj-1] before the entry without ids raises. *)
Lemma C4_add_rule_stops_at_missing_ids_witness :
  ∃ e,
    BigqueryRuleBook.add_rule sample_json_dumps def_partial 0 empty_book
    = (fst (BigqueryRuleBook.add_rule sample_json_dumps
              (with_resource def_partial [project_scope]) 0 empty_book),
       Raise e)
    ∧ (is_ok (snd (BigqueryRuleBook.add_rule sample_json_dumps
                     (with_resource def_partial [project_scope]) 0
                     empty_book)) = true →
       e = InvalidRulesSchemaError 0).
Proof.
  apply (proj1 (C4_add_rule_stops_at_missing_ids sample_json_dumps
                  sample_file_system def_partial 0 empty_book
                  [project_scope] [] empty_scope eq_refl eq_refl)).
Defined.

(** [add_rule] raises on [def_partial], whose second resource entry has
    an empty id list, and the index is not what it was: the rule of the
    first entry is registered under [proj-1]. *)
Lemma C4_add_rule_not_atomic_counterexample :
  RuleDef.resource def_partial = Some [project_scope; empty_scope]
  ∧ RawResource.resource_ids empty_scope = Some []
  ∧ snd (BigqueryRuleBook.add_rule sample_json_dumps def_partial 0
           empty_book)
    = Raise (InvalidRulesSchemaError 0)
  ∧ BigqueryRuleBook.resource_rules_map
      (fst (BigqueryRuleBook.add_rule sample_json_dumps def_partial 0
              empty_book))
      !! Resource.key proj_1
    = Some [rule_no_external_owner]
  ∧ BigqueryRuleBook.resource_rules_map empty_book !! Resource.key proj_1
    = None
  ∧ fst (BigqueryRuleBook.add_rule sample_json_dumps def_partial 0
           empty_book)
    ≠ empty_book.
Proof.
  assert (Hindexed :
    BigqueryRuleBook.resource_rules_map
      (fst (BigqueryRuleBook.add_rule sample_json_dumps def_partial 0
              empty_book))
      !! Resource.key proj_1
    = Some [rule_no_external_owner])
    by (vm_compute; reflexivity).
  repeat split; try reflexivity; try exact Hindexed.
  intros Hsame. rewrite Hsame in Hindexed. discriminate Hindexed.
Qed.

(** The engine on scenario 4: the first query builds the book, a second
    one does not load the file again, a forced one does. *)
Example engine_first_query_builds :
  let after :=
    BigqueryRulesEngine.find_policy_violations sample_json_dumps
      sample_find_ancestors sample_file_system proj_1 acl_external_bob
      false unbuilt_engine in
  fst after = built_engine
  ∧ snd after
    = Ok [Rule.violation rule_no_external_owner acl_external_bob;
          Rule.violation rule_corp_only acl_external_bob].
Proof. split; vm_compute; reflexivity. Qed.

Example engine_second_query_does_not_build :
  fst (BigqueryRulesEngine.find_policy_violations sample_json_dumps
         sample_find_ancestors sample_file_system proj_1 acl_internal
         false built_engine)
  = built_engine.
Proof. vm_compute. reflexivity. Qed.

Example engine_forced_query_builds :
  BigqueryRulesEngine.loads
    (fst (BigqueryRulesEngine.find_policy_violations sample_json_dumps
            sample_find_ancestors sample_file_system proj_1 acl_internal
            true built_engine))
  = 2.
Proof. vm_compute. reflexivity. Qed.

(** Scenarios 1 to 3. *)
Example scenario_1 :
  Rule.find_policy_violations rule_no_external_owner acl_external
  = [Rule.violation rule_no_external_owner acl_external].
Proof. vm_compute. reflexivity. Qed.

Example scenario_2 :
  Rule.find_policy_violations rule_no_external_owner acl_internal = [].
Proof. vm_compute. reflexivity. Qed.

Example scenario_3 :
  Rule.find_policy_violations rule_corp_only acl_alice = []
  ∧ Rule.find_policy_violations rule_corp_only acl_bob
    = [Rule.violation rule_corp_only acl_bob].
Proof. split; vm_compute; reflexivity. Qed.

(** [add_rules] on an engine without a rule book does nothing; on an
    engine with one it acts on the installed book in place, so a
    definition that raises half-way leaves its first rule in that book. *)
Example engine_add_rules_unbuilt :
  BigqueryRulesEngine.add_rules sample_json_dumps partial_rules_file
    unbuilt_engine
  = (unbuilt_engine, Ok tt).
Proof. reflexivity. Qed.

Example engine_add_rules_in_place :
  let after :=
    BigqueryRulesEngine.add_rules sample_json_dumps partial_rules_file
      built_engine in
  snd after = Raise (InvalidRulesSchemaError 0)
  ∧ (registered_rules sample_book proj_1 = [rule_no_external_owner])
  ∧ (λ book, registered_rules book proj_1)
      <$> BigqueryRulesEngine.rule_book (BigqueryRulesEngine.self (fst after))
    = Some [rule_no_external_owner; rule_no_external_owner].
Proof. repeat split; vm_compute; reflexivity. Qed.

(** * Further properties of the rules *)

Section RuleMatching.

Import regular_exp.

Lemma all_match_insert_intro (m : gmap (list Token) string) regex value :
  re_match regex value = true →
  all_match m = true →
  all_match (<[regex := value]> m) = true.
Proof.
  unfold all_match. rewrite !bool_decide_eq_true.
  intros Hk Hm. apply map_Forall_insert_2; assumption.
Qed.

(** X1.  An entry whose dataset_id and role both match is applicable,
    whatever the two patterns are; when the two patterns differ the
    check is exactly that conjunction.  An entry whose four fields all
    match makes [all_matched] true; when the four patterns are pairwise
    different, [all_matched] is exactly the conjunction of the four
    matches. *)
Theorem X1_matching_fields_always_match (rule : Rule.t) (acl : Acl) :
  let patterns := bigquery_acl (Rule.rules rule) in
  (re_match (bq_acls.dataset_id patterns) (bq_acls.dataset_id acl) = true →
   re_match (bq_acls.role patterns) (bq_acls.role acl) = true →
   Rule._is_applicable rule acl = true)
  ∧ (bq_acls.dataset_id patterns ≠ bq_acls.role patterns →
     Rule._is_applicable rule acl
     = re_match (bq_acls.dataset_id patterns) (bq_acls.dataset_id acl)
       && re_match (bq_acls.role patterns) (bq_acls.role acl))
  ∧ (re_match (bq_acls.special_group patterns) (bq_acls.special_group acl)
     = true →
     re_match (bq_acls.user_email patterns) (bq_acls.user_email acl) = true →
     re_match (bq_acls.domain patterns) (bq_acls.domain acl) = true →
     re_match (bq_acls.group_email patterns) (bq_acls.group_email acl)
     = true →
     Rule.all_matched rule acl = true)
  ∧ (NoDup [bq_acls.special_group patterns; bq_acls.user_email patterns;
            bq_acls.domain patterns; bq_acls.group_email patterns] →
     Rule.all_matched rule acl
     = re_match (bq_acls.special_group patterns) (bq_acls.special_group acl)
       && re_match (bq_acls.user_email patterns) (bq_acls.user_email acl)
       && re_match (bq_acls.domain patterns) (bq_acls.domain acl)
       && re_match (bq_acls.group_email patterns) (bq_acls.group_email acl)).
Proof.
  intros patterns. subst patterns. split; [|split; [|split]].
  - intros Hds Hrole.
    unfold Rule._is_applicable, Rule.applicable_regex_to_val. cbv zeta.
    repeat (apply all_match_insert_intro; [assumption|]).
    apply all_match_empty.
  - apply _is_applicable_distinct.
  - intros Hsg Hue Hdom Hge.
    unfold Rule.all_matched, Rule.rule_regex_to_val. cbv zeta.
    repeat (apply all_match_insert_intro; [assumption|]).
    apply all_match_empty.
  - intros Hnd.
    rewrite !NoDup_cons, !not_elem_of_cons in Hnd.
    destruct Hnd as ((Hsu & Hsd & Hsg & _) & (Hud & Hug & _) & (Hdg & _) & _).
    unfold Rule.all_matched, Rule.rule_regex_to_val. cbv zeta.
    rewrite all_match_insert_fresh
      by (rewrite !lookup_insert_ne by congruence; apply lookup_empty).
    rewrite all_match_insert_fresh
      by (rewrite !lookup_insert_ne by congruence; apply lookup_empty).
    rewrite all_match_insert_fresh
      by (rewrite !lookup_insert_ne by congruence; apply lookup_empty).
    rewrite all_match_insert_fresh by apply lookup_empty.
    rewrite all_match_empty, andb_true_r.
    destruct (re_match _ (bq_acls.special_group acl)),
      (re_match _ (bq_acls.user_email acl)),
      (re_match _ (bq_acls.domain acl)),
      (re_match _ (bq_acls.group_email acl)); reflexivity.
Qed.

Lemma find_policy_violations_elem (rule : Rule.t) (acl : Acl)
    (v : RuleViolation.t) :
  In v (Rule.find_policy_violations rule acl)
  ↔ Rule._is_applicable rule acl = true
    ∧ Rule.has_violation rule acl = true
    ∧ v = Rule.violation rule acl.
Proof.
  unfold Rule.find_policy_violations.
  destruct (Rule._is_applicable rule acl), (Rule.has_violation rule acl);
    cbn; intuition congruence.
Qed.

Lemma find_policy_violations_length (rule : Rule.t) (acl : Acl) :
  (length (Rule.find_policy_violations rule acl) ≤ 1)%nat.
Proof.
  unfold Rule.find_policy_violations.
  destruct (Rule._is_applicable rule acl), (Rule.has_violation rule acl);
    cbn; lia.
Qed.

End RuleMatching.

Lemma X1_matching_fields_always_match_witness :
  Rule.all_matched rule_four_patterns
    (sample_acl "ds1" "READER" "projectOwners" "alice@corp.com" "corp.com"
       "bq@groups.corp.com")
  = true.
Proof.
  pose proof (X1_matching_fields_always_match rule_four_patterns
                (sample_acl "ds1" "READER" "projectOwners" "alice@corp.com"
                   "corp.com" "bq@groups.corp.com"))
    as (_ & _ & Hall & _).
  apply Hall; reflexivity.
Defined.

Section RuleBuilding.

Import regular_exp.

Variable json_dumps : RawResource.t → string.

Lemma all_match_same_pattern (m : gmap (list Token) string) regex :
  (∀ value, re_match regex value = true) →
  map_Forall (λ k _, k = regex) m →
  all_match m = true.
Proof.
  intros Hany Hkeys. apply all_match_true. intros k value Hk.
  rewrite (Hkeys k value Hk). apply Hany.
Qed.

Lemma re_match_star_any (value : string) :
  re_match (escape_and_globify "*") value = true.
Proof.
  apply re_match_Star_iff. exists value, "".
  split; [symmetry; apply append_empty_r | reflexivity].
Qed.

(** The fields of a rule that was built. *)
Lemma _build_rule_patterns (rule_def : RuleDef.t) (rule_index : nat)
    (raw_resource : RawResource.t) (rule : Rule.t) :
  BigqueryRuleBook._build_rule json_dumps rule_def rule_index raw_resource
  = Ok rule →
  Rule.rule_name rule = RuleDef.name rule_def
  ∧ Rule.rule_index rule = rule_index
  ∧ bq_acls.dataset_id (bigquery_acl (Rule.rules rule))
    = escape_and_globify (default "*" (RuleDef.dataset_id rule_def))
  ∧ bq_acls.special_group (bigquery_acl (Rule.rules rule))
    = escape_and_globify (default "*" (RuleDef.special_group rule_def))
  ∧ bq_acls.user_email (bigquery_acl (Rule.rules rule))
    = escape_and_globify (default "*" (RuleDef.user_email rule_def))
  ∧ bq_acls.domain (bigquery_acl (Rule.rules rule))
    = escape_and_globify (default "*" (RuleDef.domain rule_def))
  ∧ bq_acls.group_email (bigquery_acl (Rule.rules rule))
    = escape_and_globify (default "*" (RuleDef.group_email rule_def))
  ∧ bq_acls.role (bigquery_acl (Rule.rules rule))
    = escape_and_globify (upper (default "*" (RuleDef.role rule_def))).
Proof.
  intros Hbuild.
  destruct (if truthy_str (RuleDef.mode rule_def)
            then Mode_of_value (default "" (RuleDef.mode rule_def))
            else Ok BLACKLIST) as [rule_mode|e] eqn:Hmode.
  - destruct (_build_rule_mode json_dumps rule_def rule_index raw_resource
                rule_mode Hmode) as (rule' & Hbuild' & _ & Hfields).
    rewrite Hbuild in Hbuild'. injection Hbuild' as <-. exact Hfields.
  - rewrite (_build_rule_raises json_dumps _ _ _ _ Hmode) in Hbuild.
    discriminate.
Qed.

(** X2.  A rule definition that names none of the six field patterns
    compiles to a rule that every entry matches, since each pattern
    defaults to ["*"]: as a blacklist rule (which is also what a missing
    mode gives) it yields a violation for every entry, as a whitelist
    rule for none. *)
Theorem X2_rule_without_patterns_matches_every_entry (rule_def : RuleDef.t)
    (rule_index : nat) (raw_resource : RawResource.t) (rule : Rule.t) :
  RuleDef.dataset_id rule_def = None →
  RuleDef.special_group rule_def = None →
  RuleDef.user_email rule_def = None →
  RuleDef.domain rule_def = None →
  RuleDef.group_email rule_def = None →
  RuleDef.role rule_def = None →
  BigqueryRuleBook._build_rule json_dumps rule_def rule_index raw_resource
  = Ok rule →
  ∀ acl : Acl,
    Rule._is_applicable rule acl = true
    ∧ Rule.all_matched rule acl = true
    ∧ Rule.find_policy_violations rule acl
      = match mode (Rule.rules rule) with
        | BLACKLIST => [Rule.violation rule acl]
        | WHITELIST => []
        end.
Proof.
  intros Hds Hsg Hue Hdom Hge Hrole Hbuild acl.
  destruct (_build_rule_patterns rule_def rule_index raw_resource rule
              Hbuild)
    as (_ & _ & Pds & Psg & Pue & Pdom & Pge & Prole).
  rewrite Hds in Pds. rewrite Hsg in Psg. rewrite Hue in Pue.
  rewrite Hdom in Pdom. rewrite Hge in Pge. rewrite Hrole in Prole.
  cbn [default from_option id] in Pds, Psg, Pue, Pdom, Pge, Prole.
  change (upper "*") with "*" in Prole.
  assert (Happ : Rule._is_applicable rule acl = true).
  { unfold Rule._is_applicable, Rule.applicable_regex_to_val. cbv zeta.
    rewrite Pds, Prole.
    apply (all_match_same_pattern _ (escape_and_globify "*"));
      [apply re_match_star_any|].
    repeat (apply map_Forall_insert_2; [reflexivity|]).
    apply map_Forall_empty. }
  assert (Hall : Rule.all_matched rule acl = true).
  { unfold Rule.all_matched, Rule.rule_regex_to_val. cbv zeta.
    rewrite Psg, Pue, Pdom, Pge.
    apply (all_match_same_pattern _ (escape_and_globify "*"));
      [apply re_match_star_any|].
    repeat (apply map_Forall_insert_2; [reflexivity|]).
    apply map_Forall_empty. }
  split; [exact Happ|]. split; [exact Hall|].
  rewrite (applicable_find_policy_violations rule acl Happ).
  rewrite has_violation_mode, Hall.
  destruct (mode (Rule.rules rule)); reflexivity.
Qed.

(** X3.  The rules a definition compiles to for different resource
    entries, whatever the serialization of the entries, yield the same
    violations on every access-control entry: a violation does not tell
    under which resource the rule that found it is registered. *)
Theorem X3_violations_do_not_depend_on_scope (json_dumps' : RawResource.t → string)
    (rule_def : RuleDef.t) (rule_index : nat)
    (raw_resource raw_resource' : RawResource.t) (rule rule' : Rule.t) :
  BigqueryRuleBook._build_rule json_dumps rule_def rule_index raw_resource
  = Ok rule →
  BigqueryRuleBook._build_rule json_dumps' rule_def rule_index raw_resource'
  = Ok rule' →
  ∀ acl : Acl,
    Rule.find_policy_violations rule acl
    = Rule.find_policy_violations rule' acl.
Proof.
  unfold BigqueryRuleBook._build_rule. cbv zeta.
  destruct (if truthy_str (RuleDef.mode rule_def)
            then Mode_of_value (default "" (RuleDef.mode rule_def))
            else Ok BLACKLIST) as [rule_mode|e]; [|discriminate].
  intros [= <-] [= <-] acl. reflexivity.
Qed.

End RuleBuilding.

Lemma X2_rule_without_patterns_matches_every_entry_witness :
  Rule._is_applicable rule_no_pattern acl_bob = true
  ∧ Rule.all_matched rule_no_pattern acl_bob = true
  ∧ Rule.find_policy_violations rule_no_pattern acl_bob
    = match mode (Rule.rules rule_no_pattern) with
      | BLACKLIST => [Rule.violation rule_no_pattern acl_bob]
      | WHITELIST => []
      end.
Proof.
  apply (X2_rule_without_patterns_matches_every_entry sample_json_dumps
           def_no_pattern 0 organization_scope rule_no_pattern);
    reflexivity.
Defined.

Lemma X3_violations_do_not_depend_on_scope_witness :
  Rule.find_policy_violations
    (get_ok (BigqueryRuleBook._build_rule sample_json_dumps
               def_no_external_owner 0 organization_scope) eq_refl)
    acl_external
  = Rule.find_policy_violations rule_no_external_owner acl_external.
Proof.
  apply (X3_violations_do_not_depend_on_scope sample_json_dumps
           sample_json_dumps def_no_external_owner 0
           organization_scope project_scope); reflexivity.
Defined.

(** * Further properties of the query *)

Section QueryResults.

Variable find_ancestors : Resource.t → string → list Resource.t.

Lemma ancestor_violations_elem (self : BigqueryRuleBook.t) (acl : Acl)
    (res : Resource.t) (v : RuleViolation.t) :
  In v (ancestor_violations self acl res)
  ↔ ∃ rule,
      In rule (registered_rules self res)
      ∧ Rule._is_applicable rule acl = true
      ∧ Rule.has_violation rule acl = true
      ∧ v = Rule.violation rule acl.
Proof.
  unfold ancestor_violations. rewrite in_concat. split.
  - intros (l & Hl & Hv). apply in_map_iff in Hl as (rule & <- & Hrule).
    exists rule. split; [exact Hrule|].
    apply find_policy_violations_elem, Hv.
  - intros (rule & Hrule & Hv).
    exists (Rule.find_policy_violations rule acl). split.
    + apply in_map_iff. exists rule. split; [reflexivity | exact Hrule].
    + apply find_policy_violations_elem, Hv.
Qed.

Lemma ancestor_violations_length (self : BigqueryRuleBook.t) (acl : Acl)
    (res : Resource.t) :
  (length (ancestor_violations self acl res)
   ≤ length (registered_rules self res))%nat.
Proof.
  unfold ancestor_violations.
  induction (registered_rules self res) as [|rule l IH]; [reflexivity|].
  cbn [map concat length]. rewrite length_app.
  pose proof (find_policy_violations_length rule acl). lia.
Qed.

(** X4.  A query never raises, and it reports exactly the violations of
    the rules that are registered for one of the ancestors the resolver
    returns, are applicable to the entry and flag it: nothing else, and
    none of them is left out. *)
Theorem X4_query_reports_exactly_the_flagged_rules
    (self : BigqueryRuleBook.t) (resource : Resource.t) (acl : Acl) :
  ∃ violations,
    BigqueryRuleBook.find_policy_violations find_ancestors resource acl self
    = (self, Ok violations)
    ∧ ∀ v : RuleViolation.t,
        v ∈ violations
        ↔ ∃ res rule,
            res ∈ find_ancestors resource (Resource.full_name resource)
            ∧ rule ∈ default []
                       (BigqueryRuleBook.resource_rules_map self
                          !! Resource.key res)
            ∧ Rule._is_applicable rule acl = true
            ∧ Rule.has_violation rule acl = true
            ∧ v = Rule.violation rule acl.
Proof.
  eexists. split; [apply find_policy_violations_eq|].
  intros v. unfold concatenated_violations.
  rewrite list_elem_of_In, in_concat. split.
  - intros (l & Hl & Hv). apply in_map_iff in Hl as (res & <- & Hres).
    apply ancestor_violations_elem in Hv as (rule & Hrule & Hv).
    exists res, rule. rewrite !list_elem_of_In. auto.
  - intros (res & rule & Hres & Hrule & Hv).
    rewrite list_elem_of_In in Hres. rewrite list_elem_of_In in Hrule.
    exists (ancestor_violations self acl res). split.
    + apply in_map_iff. exists res. split; [reflexivity | exact Hres].
    + apply ancestor_violations_elem. exists rule. auto.
Qed.

(** X5.  A query yields at most one violation per rule registered along
    the ancestor chain, an ancestor that the resolver lists twice
    counting twice. *)
Theorem X5_at_most_one_violation_per_registered_rule
    (self : BigqueryRuleBook.t) (resource : Resource.t) (acl : Acl) :
  ∃ violations,
    snd (BigqueryRuleBook.find_policy_violations find_ancestors resource acl
           self) = Ok violations
    ∧ (length violations
       ≤ length
           (concat
              (map (λ res,
                      default []
                        (BigqueryRuleBook.resource_rules_map self
                           !! Resource.key res))
                   (find_ancestors resource (Resource.full_name resource)))))%nat.
Proof.
  rewrite find_policy_violations_eq. eexists. split; [reflexivity|].
  unfold concatenated_violations.
  induction (find_ancestors resource (Resource.full_name resource))
    as [|res ancestors IH]; [reflexivity|].
  cbn [map concat]. rewrite !length_app.
  pose proof (ancestor_violations_length self acl res) as Hres.
  unfold registered_rules in Hres. lia.
Qed.

End QueryResults.

(** * Further properties of building the rule book *)

Section LoopInvariants.

Context {St X : Type}.
Variable R : St → St → Prop.
Hypothesis R_refl : ∀ s, R s s.
Hypothesis R_trans : ∀ s1 s2 s3, R s1 s2 → R s2 s3 → R s1 s3.

Lemma for_each_preserves (xs : list X) (body : X → M St unit) :
  (∀ x, x ∈ xs → ∀ s, R s (fst (body x s))) →
  ∀ s, R s (fst (for_each xs body s)).
Proof.
  induction xs as [|x xs IH]; intros Hbody s; [apply R_refl|].
  cbn [for_each]. unfold bind.
  assert (Hx : R s (fst (body x s))) by (apply Hbody; left).
  destruct (body x s) as [s1 [[]|e]]; cbn [fst] in *; [|exact Hx].
  apply (R_trans _ s1); [exact Hx|].
  apply IH. intros y Hy. apply Hbody. right. exact Hy.
Qed.

Lemma for_each_enumerate_preserves (xs : list X)
    (body : X → nat → M St unit) :
  ∀ i,
    (∀ j x, xs !! j = Some x → ∀ s, R s (fst (body x (i + j) s))) →
    ∀ s, R s (fst (for_each_enumerate i xs body s)).
Proof.
  induction xs as [|x xs IH]; intros i Hbody s; [apply R_refl|].
  cbn [for_each_enumerate]. unfold bind.
  pose proof (Hbody 0 x eq_refl s) as Hx. rewrite Nat.add_0_r in Hx.
  destruct (body x i s) as [s1 [[]|e]]; cbn [fst] in *; [|exact Hx].
  apply (R_trans _ s1); [exact Hx|].
  apply IH. intros j y Hy s'.
  replace (S i + j) with (i + S j) by lia. apply Hbody. exact Hy.
Qed.

End LoopInvariants.

Section LoopOutcomes.

Context {St X : Type}.

Lemma for_each_raise_inv (xs : list X) (body : X → M St unit) (e : exn) :
  ∀ s,
    snd (for_each xs body s) = Raise e →
    ∃ x s', x ∈ xs ∧ snd (body x s') = Raise e.
Proof.
  induction xs as [|x xs IH]; intros s; [discriminate|].
  cbn [for_each]. unfold bind.
  destruct (body x s) as [s1 [[]|e']] eqn:Hx.
  - intros H. destruct (IH s1 H) as (y & s' & Hy & He).
    exists y, s'. split; [right; exact Hy | exact He].
  - cbn. intros [= <-]. exists x, s. split; [left|].
    rewrite Hx. reflexivity.
Qed.

Lemma for_each_enumerate_raise_inv (xs : list X)
    (body : X → nat → M St unit) (e : exn) :
  ∀ i s,
    snd (for_each_enumerate i xs body s) = Raise e →
    ∃ j x s', xs !! j = Some x ∧ snd (body x (i + j) s') = Raise e.
Proof.
  induction xs as [|x xs IH]; intros i s; [discriminate|].
  cbn [for_each_enumerate]. unfold bind.
  destruct (body x i s) as [s1 [[]|e']] eqn:Hx.
  - intros H. destruct (IH (S i) s1 H) as (j & y & s' & Hy & He).
    exists (S j), y, s'. split; [exact Hy|].
    replace (i + S j) with (S i + j) by lia. exact He.
  - cbn. intros [= <-]. exists 0, x, s. split; [reflexivity|].
    rewrite Nat.add_0_r, Hx. reflexivity.
Qed.

End LoopOutcomes.

Section Registering.

Variable json_dumps : RawResource.t → string.

Lemma append_eq (k : Resource.t) (rule : Rule.t)
    (self : BigqueryRuleBook.t) :
  BigqueryRuleBook.append k rule self
  = ({| BigqueryRuleBook.resource_rules_map :=
          <[Resource.key k := registered_rules self k ++ [rule]]>
            (BigqueryRuleBook.resource_rules_map self);
        BigqueryRuleBook.rule_defs := BigqueryRuleBook.rule_defs self |},
     Ok tt).
Proof.
  unfold BigqueryRuleBook.append, bind, BigqueryRuleBook.getitem, modify,
    registered_rules.
  destruct (BigqueryRuleBook.resource_rules_map self !! Resource.key k);
    cbn; [reflexivity|].
  rewrite insert_insert_eq. reflexivity.
Qed.

Lemma registered_rules_append (k : Resource.t) (rule : Rule.t)
    (self : BigqueryRuleBook.t) (k' : Resource.t) :
  registered_rules (fst (BigqueryRuleBook.append k rule self)) k'
  = registered_rules self k'
    ++ (if decide (Resource.key k = Resource.key k') then [rule] else []).
Proof.
  rewrite append_eq. unfold registered_rules at 1. cbn.
  destruct (decide (Resource.key k = Resource.key k')) as [Heq|Hne].
  - rewrite Heq, lookup_insert_eq. cbn. unfold registered_rules.
    rewrite Heq. reflexivity.
  - rewrite lookup_insert_ne by exact Hne. rewrite app_nil_r.
    reflexivity.
Qed.

(** Registering one rule under every id of a resource entry. *)
Lemma register_ids (rule : Rule.t) (resource_type : option string)
    (resource_ids : list string) :
  ∀ self : BigqueryRuleBook.t,
    ∃ self',
      for_each resource_ids
        (λ resource_id,
           BigqueryRuleBook.append
             (resource_util.create_resource resource_id resource_type) rule)
        self = (self', Ok tt)
      ∧ BigqueryRuleBook.rule_defs self' = BigqueryRuleBook.rule_defs self
      ∧ ∀ k : Resource.t,
          registered_rules self' k
          = registered_rules self k
            ++ flat_map
                 (λ resource_id,
                    if decide (Resource.key
                                 (resource_util.create_resource resource_id
                                    resource_type) = Resource.key k)
                    then [rule] else [])
                 resource_ids.
Proof.
  induction resource_ids as [|resource_id ids IH]; intros self.
  - exists self. cbn. split; [reflexivity|]. split; [reflexivity|].
    intros k. rewrite app_nil_r. reflexivity.
  - cbn [for_each]. unfold bind.
    pose proof (registered_rules_append
                  (resource_util.create_resource resource_id resource_type)
                  rule self) as Hreg.
    rewrite append_eq in Hreg |- *. cbn [fst] in Hreg.
    match goal with
    | |- context [for_each ids _ ?s1] =>
        destruct (IH s1) as (self' & Hloop & Hdefs & Hrules)
    end.
    exists self'. split; [exact Hloop|]. split; [exact Hdefs|].
    intros k. rewrite Hrules, Hreg. cbn [flat_map].
    rewrite app_assoc. reflexivity.
Qed.

Lemma is_ok__build_rule (rule_def : RuleDef.t) (rule_index : nat)
    (raw_resource : RawResource.t) :
  is_ok (BigqueryRuleBook._build_rule json_dumps rule_def rule_index
           raw_resource)
  = valid_mode (RuleDef.mode rule_def).
Proof.
  unfold BigqueryRuleBook._build_rule, valid_mode, truthy_str. cbv zeta.
  destruct (RuleDef.mode rule_def) as [value|]; [|reflexivity].
  cbn [default from_option id]. unfold Mode_of_value.
  destruct (String.eqb value ""); [reflexivity|]. cbn [negb orb].
  destruct (String.eqb value "whitelist"); [reflexivity|]. cbn [orb].
  destruct (String.eqb value "blacklist"); reflexivity.
Qed.

(** What a successful [add_rule] registers. *)
Lemma add_rule_success (rule_def : RuleDef.t)
    (rule_index : nat) (resources : list RawResource.t) :
  RuleDef.resource rule_def = Some resources →
  Forall (λ raw_resource,
            BigqueryRuleBook.missing_ids
              (RawResource.resource_ids raw_resource) = false) resources →
  valid_mode (RuleDef.mode rule_def) = true →
  ∀ book : BigqueryRuleBook.t,
    ∃ book',
      BigqueryRuleBook.add_rule json_dumps rule_def rule_index book
      = (book', Ok tt)
      ∧ BigqueryRuleBook.rule_defs book' = BigqueryRuleBook.rule_defs book
      ∧ ∀ k : Resource.t,
          registered_rules book' k
          = registered_rules book k
            ++ rules_for_key json_dumps rule_def rule_index resources
                 (Resource.key k).
Proof.
  intros Hres Hids Hmode. unfold BigqueryRuleBook.add_rule.
  rewrite Hres. clear Hres.
  induction Hids as [|raw_resource resources Hraw _ IH]; intros book.
  - exists book. cbn. split; [reflexivity|]. split; [reflexivity|].
    intros k. rewrite app_nil_r. reflexivity.
  - cbn [for_each]. unfold bind at 1. rewrite Hraw.
    unfold bind at 1, lift.
    pose proof (is_ok__build_rule rule_def rule_index raw_resource) as Hok.
    rewrite Hmode in Hok.
    destruct (BigqueryRuleBook._build_rule json_dumps rule_def rule_index
                raw_resource) as [rule|e] eqn:Hbuild; [|discriminate Hok].
    destruct (register_ids rule (RawResource.type raw_resource)
                (default [] (RawResource.resource_ids raw_resource)) book)
      as (book1 & Hloop & Hdefs1 & Hrules1).
    rewrite Hloop.
    destruct (IH book1) as (book' & Hrest & Hdefs & Hrules).
    exists book'. split; [exact Hrest|].
    split; [rewrite Hdefs; exact Hdefs1|].
    intros k. rewrite (Hrules k), (Hrules1 k). unfold rules_for_key. cbn [flat_map].
    rewrite Hbuild, app_assoc. reflexivity.
Qed.

(** X6.  [add_rule] on a definition all of whose resource entries list
    ids and whose mode is none, empty or a mode returns normally, keeps
    what the index held and, under every resource key, appends the rule
    built for each entry once per id of the entry that makes the key, in
    the order of the entries and of their ids; other keys keep their
    list. *)
Theorem X6_add_rule_registers_under_every_id (rule_def : RuleDef.t)
    (rule_index : nat) (resources : list RawResource.t) :
  RuleDef.resource rule_def = Some resources →
  Forall (λ raw_resource,
            BigqueryRuleBook.missing_ids
              (RawResource.resource_ids raw_resource) = false) resources →
  valid_mode (RuleDef.mode rule_def) = true →
  ∀ book : BigqueryRuleBook.t,
    ∃ book',
      BigqueryRuleBook.add_rule json_dumps rule_def rule_index book
      = (book', Ok tt)
      ∧ BigqueryRuleBook.rule_defs book' = BigqueryRuleBook.rule_defs book
      ∧ ∀ k : Resource.t,
          default []
            (BigqueryRuleBook.resource_rules_map book' !! Resource.key k)
          = default []
              (BigqueryRuleBook.resource_rules_map book !! Resource.key k)
            ++ rules_for_key json_dumps rule_def rule_index resources
                 (Resource.key k).
Proof.
  intros Hres Hids Hmode book.
  exact (add_rule_success rule_def rule_index resources Hres Hids Hmode book).
Qed.

End Registering.

(** The definition with two resource entries registers its rule under
    [proj-1], [org-1] and [org-2]. *)
Lemma X6_add_rule_registers_under_every_id_witness :
  ∃ book',
    BigqueryRuleBook.add_rule sample_json_dumps def_two_scopes 0 empty_book
    = (book', Ok tt)
    ∧ BigqueryRuleBook.rule_defs book'
      = BigqueryRuleBook.rule_defs empty_book
    ∧ ∀ k : Resource.t,
        default []
          (BigqueryRuleBook.resource_rules_map book' !! Resource.key k)
        = default []
            (BigqueryRuleBook.resource_rules_map empty_book
               !! Resource.key k)
          ++ rules_for_key sample_json_dumps def_two_scopes 0
               (default [] (RuleDef.resource def_two_scopes))
               (Resource.key k).
Proof.
  apply (X6_add_rule_registers_under_every_id sample_json_dumps
           def_two_scopes 0 (default [] (RuleDef.resource def_two_scopes))).
  - reflexivity.
  - repeat constructor.
  - reflexivity.
Defined.

Example add_rule_two_scopes :
  registered_rules
    (fst (BigqueryRuleBook.add_rule sample_json_dumps def_two_scopes 0
            empty_book)) org_1
  = [get_ok (BigqueryRuleBook._build_rule sample_json_dumps def_two_scopes 0
               {| RawResource.type := Some "organization";
                  RawResource.resource_ids := Some ["org-1"; "org-2"] |})
       eq_refl].
Proof. vm_compute. reflexivity. Qed.

Section AppendOnly.

Variable json_dumps : RawResource.t → string.

Lemma extends_with_refl (P : option string * string → Rule.t → Prop)
    (book : BigqueryRuleBook.t) :
  extends_with P book book.
Proof.
  split; [reflexivity|]. intros k. exists [].
  rewrite app_nil_r. split; [reflexivity | constructor].
Qed.

Lemma extends_with_trans (P : option string * string → Rule.t → Prop)
    (book1 book2 book3 : BigqueryRuleBook.t) :
  extends_with P book1 book2 →
  extends_with P book2 book3 →
  extends_with P book1 book3.
Proof.
  intros [Hdefs12 H12] [Hdefs23 H23]. split; [congruence|].
  intros k. destruct (H12 k) as (added & Heq & Hadded).
  destruct (H23 k) as (added' & Heq' & Hadded').
  exists (added ++ added'). rewrite Heq', Heq, app_assoc.
  split; [reflexivity|]. apply Forall_app. split; assumption.
Qed.

Lemma extends_with_mono (P Q : option string * string → Rule.t → Prop)
    (book book' : BigqueryRuleBook.t) :
  (∀ k rule, P k rule → Q k rule) →
  extends_with P book book' →
  extends_with Q book book'.
Proof.
  intros HPQ [Hdefs H]. split; [exact Hdefs|].
  intros k. destruct (H k) as (added & Heq & Hadded).
  exists added. split; [exact Heq|].
  eapply Forall_impl; [exact Hadded|]. intros rule. apply HPQ.
Qed.

Lemma append_extends (P : option string * string → Rule.t → Prop)
    (k : Resource.t) (rule : Rule.t) (book : BigqueryRuleBook.t) :
  P (Resource.key k) rule →
  extends_with P book (fst (BigqueryRuleBook.append k rule book)).
Proof.
  intros HP. split; [rewrite append_eq; reflexivity|].
  intros k'. rewrite registered_rules_append.
  eexists. split; [reflexivity|].
  destruct (decide (Resource.key k = Resource.key k')) as [<-|_];
    repeat constructor. exact HP.
Qed.

Lemma missing_ids_false (resource_ids : option (list string)) :
  BigqueryRuleBook.missing_ids resource_ids = false →
  ∃ ids, resource_ids = Some ids ∧ ids ≠ [].
Proof.
  destruct resource_ids as [[|resource_id ids]|]; try discriminate.
  intros _. eexists. split; [reflexivity | discriminate].
Qed.

(** Whatever its outcome, [add_rule] extends the book by rules built for
    the definition it was given. *)
Lemma add_rule_extends (rule_def : RuleDef.t) (rule_index : nat)
    (book : BigqueryRuleBook.t) :
  extends_with (built_for json_dumps rule_def rule_index) book
    (fst (BigqueryRuleBook.add_rule json_dumps rule_def rule_index book)).
Proof.
  unfold BigqueryRuleBook.add_rule.
  destruct (RuleDef.resource rule_def) as [resources|] eqn:Hres;
    [|apply extends_with_refl].
  revert book.
  apply (for_each_preserves
           (extends_with (built_for json_dumps rule_def rule_index))
           (extends_with_refl _) (extends_with_trans _)).
  intros raw_resource Hraw book.
  destruct (BigqueryRuleBook.missing_ids
              (RawResource.resource_ids raw_resource)) eqn:Hmissing;
    [apply extends_with_refl|].
  unfold bind, lift.
  destruct (BigqueryRuleBook._build_rule json_dumps rule_def rule_index
              raw_resource) as [rule|e] eqn:Hbuild;
    [|apply extends_with_refl].
  destruct (missing_ids_false _ Hmissing) as (ids & Hids & _).
  rewrite Hids. cbn [default from_option id].
  revert book.
  apply (for_each_preserves
           (extends_with (built_for json_dumps rule_def rule_index))
           (extends_with_refl _) (extends_with_trans _)).
  intros resource_id Hid book. apply append_extends.
  exists resources, raw_resource, ids, resource_id.
  repeat split; first [assumption | reflexivity].
Qed.

(** X7.  [add_rule] only ever appends: whether it returns or raises, the
    rule list of every key afterwards is the list it was, followed by
    rules built from this definition at this index for a resource entry
    that lists an id of that key; nothing is removed, reordered or
    registered under a resource the definition does not name. *)
Theorem X7_add_rule_only_appends (rule_def : RuleDef.t) (rule_index : nat)
    (book : BigqueryRuleBook.t) :
  let book' :=
    fst (BigqueryRuleBook.add_rule json_dumps rule_def rule_index book) in
  BigqueryRuleBook.rule_defs book' = BigqueryRuleBook.rule_defs book
  ∧ ∀ k : Resource.t,
      ∃ added,
        default []
          (BigqueryRuleBook.resource_rules_map book' !! Resource.key k)
        = default []
            (BigqueryRuleBook.resource_rules_map book !! Resource.key k)
          ++ added
        ∧ Forall
            (λ rule,
               ∃ resources raw_resource resource_ids resource_id,
                 RuleDef.resource rule_def = Some resources
                 ∧ raw_resource ∈ resources
                 ∧ RawResource.resource_ids raw_resource = Some resource_ids
                 ∧ resource_id ∈ resource_ids
                 ∧ Resource.key k
                   = Resource.key
                       (resource_util.create_resource resource_id
                          (RawResource.type raw_resource))
                 ∧ BigqueryRuleBook._build_rule json_dumps rule_def
                     rule_index raw_resource = Ok rule)
            added.
Proof. exact (add_rule_extends rule_def rule_index book). Qed.

Lemma _build_rule_raise_inv (rule_def : RuleDef.t) (rule_index : nat)
    (raw_resource : RawResource.t) (e : exn) :
  BigqueryRuleBook._build_rule json_dumps rule_def rule_index raw_resource
  = Raise e →
  ∃ value, RuleDef.mode rule_def = Some value ∧ e = ValueError value.
Proof.
  unfold BigqueryRuleBook._build_rule, truthy_str. cbv zeta.
  destruct (RuleDef.mode rule_def) as [value|]; [|discriminate].
  cbn [default from_option id]. unfold Mode_of_value.
  destruct (String.eqb value ""); [discriminate|]. cbn [negb].
  destruct (String.eqb value "whitelist"); [discriminate|].
  destruct (String.eqb value "blacklist"); [discriminate|].
  intros [= <-]. exists value. split; reflexivity.
Qed.

(** The loop of [add_rule] returns normally only if every resource entry
    lists ids and, unless there is no entry, the mode is in order. *)
Lemma add_rule_loop_ok_inv (rule_def : RuleDef.t) (rule_index : nat)
    (resources : list RawResource.t) :
  ∀ book,
    is_ok (snd (BigqueryRuleBook.add_rule json_dumps
                  (with_resource rule_def resources) rule_index book))
    = true →
    Forall (λ raw_resource,
              BigqueryRuleBook.missing_ids
                (RawResource.resource_ids raw_resource) = false) resources
    ∧ (resources = [] ∨ valid_mode (RuleDef.mode rule_def) = true).
Proof.
  unfold BigqueryRuleBook.add_rule. cbn [with_resource RuleDef.resource].
  change (BigqueryRuleBook._build_rule json_dumps
            (with_resource rule_def resources))
    with (BigqueryRuleBook._build_rule json_dumps rule_def).
  induction resources as [|raw_resource resources IH]; intros book Hok.
  - split; [constructor | left; reflexivity].
  - cbn [for_each] in Hok. unfold bind at 1 in Hok.
    destruct (BigqueryRuleBook.missing_ids
                (RawResource.resource_ids raw_resource)) eqn:Hmissing;
      [discriminate Hok|].
    unfold bind at 1, lift in Hok.
    pose proof (is_ok__build_rule json_dumps rule_def rule_index
                  raw_resource) as Hmode.
    destruct (BigqueryRuleBook._build_rule json_dumps rule_def rule_index
                raw_resource) as [rule|e]; [|discriminate Hok].
    destruct (register_ids rule (RawResource.type raw_resource)
                (default [] (RawResource.resource_ids raw_resource)) book)
      as (book1 & Hloop & _).
    rewrite Hloop in Hok.
    destruct (IH book1 Hok) as [Hrest _].
    split; [constructor; assumption | right; symmetry; exact Hmode].
Qed.

Lemma add_rule_with_resource (rule_def : RuleDef.t) (rule_index : nat)
    (resources : list RawResource.t) (book : BigqueryRuleBook.t) :
  RuleDef.resource rule_def = Some resources →
  BigqueryRuleBook.add_rule json_dumps rule_def rule_index book
  = BigqueryRuleBook.add_rule json_dumps (with_resource rule_def resources)
      rule_index book.
Proof.
  intros Hres. unfold BigqueryRuleBook.add_rule. rewrite Hres.
  reflexivity.
Qed.

Lemma add_rule_raise_inv (rule_def : RuleDef.t) (rule_index : nat)
    (book : BigqueryRuleBook.t) (e : exn) :
  snd (BigqueryRuleBook.add_rule json_dumps rule_def rule_index book)
  = Raise e →
  (e = TypeError ∧ RuleDef.resource rule_def = None)
  ∨ e = InvalidRulesSchemaError rule_index
  ∨ ∃ value, RuleDef.mode rule_def = Some value ∧ e = ValueError value.
Proof.
  unfold BigqueryRuleBook.add_rule.
  destruct (RuleDef.resource rule_def) as [resources|].
  2:{ cbn. intros [= <-]. left. split; reflexivity. }
  intros Hraise. right.
  apply for_each_raise_inv in Hraise as (raw_resource & book' & _ & Hbody).
  destruct (BigqueryRuleBook.missing_ids
              (RawResource.resource_ids raw_resource)).
  { cbn in Hbody. injection Hbody as <-. left. reflexivity. }
  unfold bind, lift in Hbody.
  destruct (BigqueryRuleBook._build_rule json_dumps rule_def rule_index
              raw_resource) as [rule|e'] eqn:Hbuild.
  - destruct (register_ids rule (RawResource.type raw_resource)
                (default [] (RawResource.resource_ids raw_resource)) book')
      as (book1 & Hloop & _).
    rewrite Hloop in Hbody. discriminate Hbody.
  - cbn in Hbody. injection Hbody as <-. right.
    apply (_build_rule_raise_inv _ _ _ _ Hbuild).
Qed.

(** X8.  The outcome of [add_rule].  Without a ['resource'] key it raises
    [TypeError]; with an empty ['resource'] list it returns normally and
    indexes nothing, whatever the mode; in both cases the index is as it
    was.  It returns normally exactly when the list is empty, or every
    entry lists ids and the mode is none, empty or a mode.  What it
    raises is [TypeError] for the missing key,
    [InvalidRulesSchemaError] for this index, or the [ValueError] of the
    mode. *)
Theorem X8_add_rule_outcome (rule_def : RuleDef.t) (rule_index : nat)
    (book : BigqueryRuleBook.t) :
  let outcome :=
    BigqueryRuleBook.add_rule json_dumps rule_def rule_index book in
  (RuleDef.resource rule_def = None → outcome = (book, Raise TypeError))
  ∧ (RuleDef.resource rule_def = Some [] → outcome = (book, Ok tt))
  ∧ (is_ok (snd outcome) = true
     ↔ ∃ resources,
         RuleDef.resource rule_def = Some resources
         ∧ (resources = []
            ∨ (Forall (λ raw_resource,
                         BigqueryRuleBook.missing_ids
                           (RawResource.resource_ids raw_resource) = false)
                      resources
               ∧ valid_mode (RuleDef.mode rule_def) = true)))
  ∧ (∀ e,
       snd outcome = Raise e →
       (e = TypeError ∧ RuleDef.resource rule_def = None)
       ∨ e = InvalidRulesSchemaError rule_index
       ∨ ∃ value, RuleDef.mode rule_def = Some value ∧ e = ValueError value).
Proof.
  intros outcome. subst outcome. split; [|split; [|split]].
  - intros Hres. unfold BigqueryRuleBook.add_rule. rewrite Hres.
    reflexivity.
  - intros Hres. unfold BigqueryRuleBook.add_rule. rewrite Hres.
    reflexivity.
  - split.
    + intros Hok.
      destruct (RuleDef.resource rule_def) as [resources|] eqn:Hres.
      2:{ unfold BigqueryRuleBook.add_rule in Hok. rewrite Hres in Hok.
          discriminate Hok. }
      exists resources. split; [reflexivity|].
      rewrite (add_rule_with_resource _ _ resources _ Hres) in Hok.
      destruct (add_rule_loop_ok_inv _ _ _ _ Hok) as [Hids [->|Hmode]];
        [left; reflexivity | right; split; assumption].
    + intros (resources & Hres & [->|[Hids Hmode]]).
      * unfold BigqueryRuleBook.add_rule. rewrite Hres. reflexivity.
      * destruct (add_rule_success json_dumps rule_def rule_index resources
                    Hres Hids Hmode book) as (book' & -> & _).
        reflexivity.
  - apply add_rule_raise_inv.
Qed.

(** Whatever its outcome, [add_rules] extends the book by rules whose
    index points at the definition they were built from. *)
Lemma add_rules_extends (rule_defs : RuleDefs.t)
    (book : BigqueryRuleBook.t) :
  extends_with
    (λ k rule,
       ∃ rule_def,
         default [] (RuleDefs.rules rule_defs) !! Rule.rule_index rule
         = Some rule_def
         ∧ Rule.rule_name rule = RuleDef.name rule_def
         ∧ built_for json_dumps rule_def (Rule.rule_index rule) k rule)
    book (fst (BigqueryRuleBook.add_rules json_dumps rule_defs book)).
Proof.
  unfold BigqueryRuleBook.add_rules. revert book.
  apply for_each_enumerate_preserves;
    [apply extends_with_refl | apply extends_with_trans|].
  intros j rule_def Hj book. cbn [Nat.add].
  eapply extends_with_mono; [|apply add_rule_extends].
  intros k rule Hbuilt.
  assert (Hfields : Rule.rule_name rule = RuleDef.name rule_def
                    ∧ Rule.rule_index rule = j).
  { destruct Hbuilt as (rs & raw & ids & resource_id & _ & _ & _ & _ & _
                        & Hbuild).
    destruct (_build_rule_patterns json_dumps _ _ _ _ Hbuild)
      as (Hname & Hindex & _).
    split; assumption. }
  destruct Hfields as [Hname Hindex]. exists rule_def.
  rewrite Hindex. auto.
Qed.

Lemma add_rules_raise_inv (rule_defs : RuleDefs.t)
    (book : BigqueryRuleBook.t) (e : exn) :
  snd (BigqueryRuleBook.add_rules json_dumps rule_defs book) = Raise e →
  e ≠ AttributeError.
Proof.
  unfold BigqueryRuleBook.add_rules. intros Hraise.
  apply for_each_enumerate_raise_inv in Hraise
    as (j & rule_def & book' & _ & Hbody).
  apply add_rule_raise_inv in Hbody
    as [[-> _]|[->|(value & _ & ->)]]; discriminate.
Qed.

Lemma __init___raise_inv (rule_defs : option RuleDefs.t) (e : exn) :
  BigqueryRuleBook.__init__ json_dumps rule_defs = Raise e →
  e ≠ AttributeError.
Proof.
  unfold BigqueryRuleBook.__init__. cbv zeta.
  destruct rule_defs as [defs|]; [|discriminate].
  destruct (BigqueryRuleBook.no_defs (Some defs)); [discriminate|].
  destruct (BigqueryRuleBook.add_rules json_dumps defs _)
    as [book [[]|e']] eqn:Hadd; [discriminate|].
  intros [= <-].
  eapply (add_rules_raise_inv defs). rewrite Hadd. reflexivity.
Qed.

(** X9.  Every rule of a book that was built from a rules file carries
    the position of its definition in the file as its index and the name
    of that definition as its name, and is registered only under a
    resource that one of the definition's resource entries lists: it is
    the rule that definition compiles to for that entry. *)
Theorem X9_built_book_rules_come_from_their_definition
    (rule_defs : option RuleDefs.t) (book : BigqueryRuleBook.t) :
  BigqueryRuleBook.__init__ json_dumps rule_defs = Ok book →
  ∀ (k : Resource.t) (rule : Rule.t),
    rule ∈ default []
             (BigqueryRuleBook.resource_rules_map book !! Resource.key k) →
    ∃ defs rule_def resources raw_resource resource_ids resource_id,
      rule_defs = Some defs
      ∧ default [] (RuleDefs.rules defs) !! Rule.rule_index rule
        = Some rule_def
      ∧ Rule.rule_name rule = RuleDef.name rule_def
      ∧ RuleDef.resource rule_def = Some resources
      ∧ raw_resource ∈ resources
      ∧ RawResource.resource_ids raw_resource = Some resource_ids
      ∧ resource_id ∈ resource_ids
      ∧ Resource.key k
        = Resource.key
            (resource_util.create_resource resource_id
               (RawResource.type raw_resource))
      ∧ BigqueryRuleBook._build_rule json_dumps rule_def
          (Rule.rule_index rule) raw_resource = Ok rule.
Proof.
  unfold BigqueryRuleBook.__init__. cbv zeta.
  destruct rule_defs as [defs|].
  2:{ intros [= <-] k rule. cbn. rewrite lookup_empty. cbn.
      intros H. apply elem_of_nil in H. contradiction. }
  destruct (BigqueryRuleBook.no_defs (Some defs)).
  { intros [= <-] k rule. cbn. rewrite lookup_empty. cbn.
    intros H. apply elem_of_nil in H. contradiction. }
  pose proof (add_rules_extends defs
                {| BigqueryRuleBook.resource_rules_map := ∅;
                   BigqueryRuleBook.rule_defs := defs |}) as [_ Hext].
  destruct (BigqueryRuleBook.add_rules json_dumps defs _)
    as [book' [[]|e]]; [|discriminate].
  intros [= <-] k rule Hrule. cbn [fst] in Hext.
  destruct (Hext k) as (added & Heq & Hadded).
  unfold registered_rules in Heq. cbn in Heq.
  rewrite lookup_empty in Heq. cbn in Heq.
  rewrite Heq in Hrule.
  rewrite Forall_forall in Hadded.
  destruct (Hadded rule Hrule)
    as (rule_def & Hdef & Hname & rs & raw & ids & resource_id & Hbuilt).
  exists defs, rule_def, rs, raw, ids, resource_id.
  destruct Hbuilt as (? & ? & ? & ? & ? & ?). auto 10.
Qed.

End AppendOnly.

(** The rules of the book of scenario 4 under [proj-1]. *)
Lemma X9_built_book_rules_come_from_their_definition_witness :
  ∃ defs rule_def resources raw_resource resource_ids resource_id,
    Some sample_rules_file = Some defs
    ∧ default [] (RuleDefs.rules defs)
        !! Rule.rule_index rule_no_external_owner
      = Some rule_def
    ∧ Rule.rule_name rule_no_external_owner = RuleDef.name rule_def
    ∧ RuleDef.resource rule_def = Some resources
    ∧ raw_resource ∈ resources
    ∧ RawResource.resource_ids raw_resource = Some resource_ids
    ∧ resource_id ∈ resource_ids
    ∧ Resource.key proj_1
      = Resource.key
          (resource_util.create_resource resource_id
             (RawResource.type raw_resource))
    ∧ BigqueryRuleBook._build_rule sample_json_dumps rule_def
        (Rule.rule_index rule_no_external_owner) raw_resource
      = Ok rule_no_external_owner.
Proof.
  apply (X9_built_book_rules_come_from_their_definition sample_json_dumps
           (Some sample_rules_file) sample_book).
  - vm_compute. reflexivity.
  - apply list_elem_of_In. vm_compute. left. reflexivity.
Defined.

(** A definition with an empty resource list is accepted, even with a
    mode string that is no mode. *)
Lemma X8_add_rule_outcome_witness :
  BigqueryRuleBook.add_rule sample_json_dumps
    (with_resource def_unknown_mode []) 7 sample_book
  = (sample_book, Ok tt).
Proof.
  apply (X8_add_rule_outcome sample_json_dumps
           (with_resource def_unknown_mode []) 7 sample_book).
  reflexivity.
Defined.

(** * Further properties of the built book and of the engine *)

Section BuiltBook.

Variable json_dumps : RawResource.t → string.
Variable find_ancestors : Resource.t → string → list Resource.t.

Lemma concatenated_violations_no_rules (self : BigqueryRuleBook.t)
    (acl : Acl) (ancestors : list Resource.t) :
  BigqueryRuleBook.resource_rules_map self = ∅ →
  concatenated_violations self acl ancestors = [].
Proof.
  intros Hempty. unfold concatenated_violations.
  induction ancestors as [|res ancestors IH]; [reflexivity|].
  cbn [map concat]. rewrite IH.
  unfold ancestor_violations, registered_rules.
  rewrite Hempty, lookup_empty. reflexivity.
Qed.

(** X10.  A rule book made from no definitions ([None], a dictionary
    without rules, or an empty rule list) is made without error, has an
    empty index, and answers every query with no violation. *)
Theorem X10_book_without_definitions_reports_nothing
    (rule_defs : option RuleDefs.t) :
  (rule_defs = None
   ∨ ∃ defs, rule_defs = Some defs
             ∧ default [] (RuleDefs.rules defs) = []) →
  ∃ book,
    BigqueryRuleBook.__init__ json_dumps rule_defs = Ok book
    ∧ BigqueryRuleBook.resource_rules_map book = ∅
    ∧ ∀ (resource : Resource.t) (acl : Acl),
        BigqueryRuleBook.find_policy_violations find_ancestors resource acl
          book
        = (book, Ok []).
Proof.
  intros Hnone.
  assert (Hbook : ∃ book,
            BigqueryRuleBook.__init__ json_dumps rule_defs = Ok book
            ∧ BigqueryRuleBook.resource_rules_map book = ∅).
  { destruct Hnone as [->|(defs & -> & Hrules)].
    - eexists. split; reflexivity.
    - unfold BigqueryRuleBook.__init__, BigqueryRuleBook.no_defs.
      cbv zeta.
      destruct (RuleDefs.rules defs) as [rules|] eqn:Hdefs.
      + cbn in Hrules. subst rules.
        unfold BigqueryRuleBook.add_rules. rewrite Hdefs. cbn.
        eexists. split; reflexivity.
      + eexists. split; reflexivity. }
  destruct Hbook as (book & Hinit & Hempty).
  exists book. split; [exact Hinit|]. split; [exact Hempty|].
  intros resource acl. rewrite find_policy_violations_eq.
  rewrite (concatenated_violations_no_rules book acl _ Hempty).
  reflexivity.
Qed.

(** X11.  What [add_rule] registers, a query finds: after a successful
    [add_rule], a query for a resource whose ancestors include a
    resource listed by an entry of the definition reports the violation
    of the rule built for that entry, for every access-control entry the
    rule is applicable to and flags. *)
Theorem X11_registered_rule_is_found (rule_def : RuleDef.t)
    (rule_index : nat) (resources : list RawResource.t)
    (raw_resource : RawResource.t) (resource_ids : list string)
    (resource_id : string) (rule : Rule.t) (book : BigqueryRuleBook.t)
    (resource res : Resource.t) (acl : Acl) :
  RuleDef.resource rule_def = Some resources →
  Forall (λ raw_resource,
            BigqueryRuleBook.missing_ids
              (RawResource.resource_ids raw_resource) = false) resources →
  raw_resource ∈ resources →
  RawResource.resource_ids raw_resource = Some resource_ids →
  resource_id ∈ resource_ids →
  BigqueryRuleBook._build_rule json_dumps rule_def rule_index raw_resource
  = Ok rule →
  res ∈ find_ancestors resource (Resource.full_name resource) →
  Resource.key res
  = Resource.key
      (resource_util.create_resource resource_id
         (RawResource.type raw_resource)) →
  Rule._is_applicable rule acl = true →
  Rule.has_violation rule acl = true →
  ∃ book' violations,
    BigqueryRuleBook.add_rule json_dumps rule_def rule_index book
    = (book', Ok tt)
    ∧ BigqueryRuleBook.find_policy_violations find_ancestors resource acl
        book'
      = (book', Ok violations)
    ∧ Rule.violation rule acl ∈ violations.
Proof.
  intros Hres Hids Hraw Hraw_ids Hid Hbuild Hanc Hkey Happ Hviol.
  assert (Hmode : valid_mode (RuleDef.mode rule_def) = true).
  { rewrite <- (is_ok__build_rule json_dumps rule_def rule_index
                  raw_resource), Hbuild. reflexivity. }
  destruct (add_rule_success json_dumps rule_def rule_index resources
              Hres Hids Hmode book) as (book' & Hadd & _ & Hrules).
  exists book'. eexists. split; [exact Hadd|].
  split; [apply find_policy_violations_eq|].
  apply list_elem_of_In. unfold concatenated_violations.
  apply in_concat. exists (ancestor_violations book' acl res). split.
  - apply in_map_iff. exists res. split; [reflexivity|].
    apply list_elem_of_In, Hanc.
  - apply ancestor_violations_elem. exists rule.
    split; [|split; [exact Happ | split; [exact Hviol | reflexivity]]].
    rewrite (Hrules res). apply in_or_app. right.
    unfold rules_for_key. apply in_flat_map.
    exists raw_resource. split; [apply list_elem_of_In, Hraw|].
    rewrite Hbuild, Hraw_ids. cbn [default from_option id].
    apply in_flat_map. exists resource_id.
    split; [apply list_elem_of_In, Hid|].
    rewrite decide_True by (symmetry; exact Hkey). left. reflexivity.
Qed.

End BuiltBook.

Section EngineLifeCycle.

Variable json_dumps : RawResource.t → string.
Variable find_ancestors : Resource.t → string → list Resource.t.
Variable rules_file : string → option RuleDefs.t.

(** X12.  A query through the engine keeps the path of the rules file;
    an engine that had a rule book still has one afterwards; a query
    that returns normally leaves a rule book installed; a query that
    raises leaves the rule book of the engine as it was; and no query
    fails for want of a rule book. *)
Theorem X12_engine_query_keeps_the_engine_usable
    (w : BigqueryRulesEngine.World) (parent_project : Resource.t)
    (acl : Acl) (force_rebuild : bool) :
  let after :=
    BigqueryRulesEngine.find_policy_violations json_dumps find_ancestors
      rules_file parent_project acl force_rebuild w in
  let engine := BigqueryRulesEngine.self w in
  let engine' := BigqueryRulesEngine.self (fst after) in
  BigqueryRulesEngine.rules_file_path engine'
  = BigqueryRulesEngine.rules_file_path engine
  ∧ (BigqueryRulesEngine.rule_book engine ≠ None →
     BigqueryRulesEngine.rule_book engine' ≠ None)
  ∧ (is_ok (snd after) = true →
     BigqueryRulesEngine.rule_book engine' ≠ None)
  ∧ (is_ok (snd after) = false →
     BigqueryRulesEngine.rule_book engine'
     = BigqueryRulesEngine.rule_book engine)
  ∧ snd after ≠ Raise AttributeError.
Proof.
  intros after engine engine'. subst after engine engine'.
  rewrite find_policy_violations_engine_eq. cbv zeta.
  destruct w as [[path [installed|]] n]; cbn [BigqueryRulesEngine.self
    BigqueryRulesEngine.rule_book BigqueryRulesEngine.rules_file_path
    BigqueryRulesEngine.loads].
  - rewrite bool_decide_eq_false_2 by discriminate. cbn [orb].
    destruct force_rebuild.
    + destruct (BigqueryRuleBook.__init__ json_dumps (rules_file path))
        as [fresh|e] eqn:Hinit; cbn;
        repeat split; try discriminate; try reflexivity.
      intros [= ->]. apply (__init___raise_inv _ _ _ Hinit). reflexivity.
    + cbn. repeat split; try discriminate; try reflexivity.
  - rewrite bool_decide_eq_true_2 by reflexivity. cbn [orb].
    destruct (BigqueryRuleBook.__init__ json_dumps (rules_file path))
      as [fresh|e] eqn:Hinit; cbn;
      repeat split; try discriminate; try reflexivity;
      try (intros H; exfalso; apply H; reflexivity).
    intros [= ->]. apply (__init___raise_inv _ _ _ Hinit). reflexivity.
Qed.

(** X13.  [add_rules] on the engine never loads the rules file and keeps
    its path.  Without a rule book it does nothing and returns normally.
    With one, it runs the rule book's [add_rules] on the installed book
    in place: the book stays installed, with what that call did to it
    even if it raised, and every rule that was registered is still
    registered, in the same place of its list. *)
Theorem X13_engine_add_rules_acts_on_the_installed_book
    (w : BigqueryRulesEngine.World) (rules : RuleDefs.t) :
  let after := BigqueryRulesEngine.add_rules json_dumps rules w in
  let engine := BigqueryRulesEngine.self w in
  BigqueryRulesEngine.loads (fst after) = BigqueryRulesEngine.loads w
  ∧ BigqueryRulesEngine.rules_file_path
      (BigqueryRulesEngine.self (fst after))
    = BigqueryRulesEngine.rules_file_path engine
  ∧ match BigqueryRulesEngine.rule_book engine with
    | None => after = (w, Ok tt)
    | Some installed =>
        BigqueryRulesEngine.rule_book (BigqueryRulesEngine.self (fst after))
        = Some (fst (BigqueryRuleBook.add_rules json_dumps rules installed))
        ∧ snd after
          = snd (BigqueryRuleBook.add_rules json_dumps rules installed)
        ∧ ∀ k : Resource.t,
            ∃ added,
              default []
                (BigqueryRuleBook.resource_rules_map
                   (fst (BigqueryRuleBook.add_rules json_dumps rules
                           installed)) !! Resource.key k)
              = default []
                  (BigqueryRuleBook.resource_rules_map installed
                     !! Resource.key k)
                ++ added
    end.
Proof.
  intros after engine. subst after engine.
  unfold BigqueryRulesEngine.add_rules, bind,
    BigqueryRulesEngine.on_rule_book, ret.
  destruct w as [[path [installed|]] n]; cbn [BigqueryRulesEngine.self
    BigqueryRulesEngine.rule_book BigqueryRulesEngine.rules_file_path
    BigqueryRulesEngine.loads].
  - rewrite bool_decide_eq_true_2 by discriminate. cbn.
    pose proof (add_rules_extends json_dumps rules installed) as [_ Hext].
    destruct (BigqueryRuleBook.add_rules json_dumps rules installed)
      as [book' r]. cbn.
    repeat split.
    intros k. destruct (Hext k) as (added & Heq & _).
    exists added. exact Heq.
  - rewrite bool_decide_eq_false_2 by (intros H; apply H; reflexivity).
    cbn. repeat split.
Qed.

End EngineLifeCycle.

(** A rules file with an empty rule list. *)
Lemma X10_book_without_definitions_reports_nothing_witness :
  ∃ book,
    BigqueryRuleBook.__init__ sample_json_dumps
      (Some {| RuleDefs.rules := Some [] |}) = Ok book
    ∧ BigqueryRuleBook.resource_rules_map book = ∅
    ∧ ∀ (resource : Resource.t) (acl : Acl),
        BigqueryRuleBook.find_policy_violations sample_find_ancestors
          resource acl book
        = (book, Ok []).
Proof.
  apply (X10_book_without_definitions_reports_nothing sample_json_dumps
           sample_find_ancestors (Some {| RuleDefs.rules := Some [] |})).
  right. eexists. split; reflexivity.
Defined.

(** Scenario 4 again: the rule registered on [org-1] is found by a query
    for [proj-1]. *)
Lemma X11_registered_rule_is_found_witness :
  ∃ book' violations,
    BigqueryRuleBook.add_rule sample_json_dumps def_corp_only 1 empty_book
    = (book', Ok tt)
    ∧ BigqueryRuleBook.find_policy_violations sample_find_ancestors proj_1
        acl_bob book'
      = (book', Ok violations)
    ∧ Rule.violation rule_corp_only acl_bob ∈ violations.
Proof.
  apply (X11_registered_rule_is_found sample_json_dumps
           sample_find_ancestors def_corp_only 1 [organization_scope]
           organization_scope ["org-1"] "org-1" rule_corp_only empty_book
           proj_1 org_1 acl_bob);
    try reflexivity.
  - repeat constructor.
  - left.
  - left.
  - right. left.
Defined.

(** The first query of an engine builds its rule book. *)
Lemma X12_engine_query_keeps_the_engine_usable_witness :
  BigqueryRulesEngine.rule_book
    (BigqueryRulesEngine.self
       (fst (BigqueryRulesEngine.find_policy_violations sample_json_dumps
               sample_find_ancestors sample_file_system proj_1 acl_bob false
               unbuilt_engine)))
  ≠ None.
Proof.
  pose proof (X12_engine_query_keeps_the_engine_usable sample_json_dumps
                sample_find_ancestors sample_file_system unbuilt_engine
                proj_1 acl_bob false) as (_ & _ & Hok & _).
  apply Hok. vm_compute. reflexivity.
Defined.
